(** * nexgen: the Tristan NeXus checker and the NXmx writer

    A shallow embedding of
    - [src/nexgen/nxs_check/CheckTristanNexus.py] (the consistency checker),
    - [src/nexgen/nxs_write/NexusWriter.py] (the top-level writers), and
    - [src/nexgen/command_line/__init__.py] (the helpers of the command line),
    over a small model of an HDF5 file as h5py presents it: a tree of groups
    and datasets, each carrying attributes.  Python exceptions are modelled by
    an exception monad that keeps the file as it was when the exception was
    raised, because an h5py file opened in "r+" mode is mutated in place. *)

From Stdlib Require Import ZArith SpecFloat.
From stdpp Require Import base option list strings gmap fin_maps.

Open Scope string_scope.
Open Scope list_scope.

(** ** Values stored in the file *)

(** Numbers.  The source writes both integers ([[0, 0, -1]]) and floats
    ([[0.0]]); floats are IEEE binary64 values in the representation of the
    standard library's [SpecFloat]. *)
Inductive scalar :=
| SInt (z : Z)
| SFloat (f : spec_float).

(** [float(z)], rounding to nearest even as numpy does when it compares an
    integer with a float64. *)
Definition float_of_int (z : Z) : spec_float :=
  binary_normalize 53 1024 z 0 false.

(** Python/numpy [==] on two numbers. *)
Definition scalar_eqb (a b : scalar) : bool :=
  match a, b with
  | SInt x, SInt y => Z.eqb x y
  | SInt x, SFloat g => SFeqb (float_of_int x) g
  | SFloat f, SInt y => SFeqb f (float_of_int y)
  | SFloat f, SFloat g => SFeqb f g
  end.

Definition scalar_ne (a b : scalar) : bool := negb (scalar_eqb a b).

(** What a dataset or an attribute holds.
    - [VBytes s]: a fixed-length byte string, what h5py stores for
      [np.string_(s)] and what Python writes as [b"..."];
    - [VStr s]: a variable-length text string, what h5py stores for a Python
      [str];
    - [VNum x]: a scalar number;
    - [VArr xs]: a one-dimensional numeric array (a Python list of numbers is
      stored as one). *)
Inductive value :=
| VBytes (s : string)
| VStr (s : string)
| VNum (x : scalar)
| VArr (xs : list scalar).

(** The text of a string value, whichever of the two string kinds it is. *)
Definition value_text (v : value) : option string :=
  match v with
  | VBytes s | VStr s => Some s
  | _ => None
  end.

(** The two families of h5py releases differ in what [dataset[()]] returns for
    a variable-length text dataset: [str] before 3.0, [bytes] from 3.0 on.
    Fixed-length strings are [bytes] in both, and attributes are read back in
    the kind they were written in both. *)
Inductive h5py_version := H5py2 | H5py3.

(** [dataset[()]] *)
Definition dataset_read (ver : h5py_version) (v : value) : value :=
  match v, ver with
  | VStr s, H5py3 => VBytes s
  | _, _ => v
  end.

(** ** The file tree *)

#[warnings="-register-all"]
Inductive node :=
| Dataset (data : value) (attrs : gmap string value)
| Group (attrs : gmap string value) (members : gmap string node).

(** A slash-separated h5py name, split into its components. *)
Definition path := list string.

Definition node_attrs (n : node) : gmap string value :=
  match n with
  | Dataset _ a => a
  | Group a _ => a
  end.

Definition set_node_attrs (a : gmap string value) (n : node) : node :=
  match n with
  | Dataset d _ => Dataset d a
  | Group _ ms => Group a ms
  end.

(** [n.attrs[k] = v] *)
Definition set_attr (k : string) (v : value) (n : node) : node :=
  set_node_attrs (<[k := v]> (node_attrs n)) n.

(** The object a name resolves to below [n]; [None] when a component is
    missing or is not a group. *)
Fixpoint node_get (p : path) (n : node) : option node :=
  match p with
  | [] => Some n
  | k :: p' =>
      match n with
      | Group _ ms => ms !! k ≫= node_get p'
      | Dataset _ _ => None
      end
  end.

(** Replace the object at [p] by [f] of it; nothing changes when [p] does not
    resolve. *)
Fixpoint node_alter (f : node → node) (p : path) (n : node) : node :=
  match p with
  | [] => f n
  | k :: p' =>
      match n with
      | Group a ms => Group a (alter (node_alter f p') k ms)
      | Dataset _ _ => n
      end
  end.

(** Direct members of a group: unlink one, link a new one. *)
Definition unlink (k : string) (n : node) : node :=
  match n with
  | Group a ms => Group a (delete k ms)
  | Dataset _ _ => n
  end.

Definition link (k : string) (c : node) (n : node) : node :=
  match n with
  | Group a ms => Group a (<[k := c]> ms)
  | Dataset _ _ => n
  end.

(** A name split into the group part and the last component
    (["entry/definition"] into ["entry"] and ["definition"]). *)
Fixpoint split_last (p : path) : option (path * string) :=
  match p with
  | [] => None
  | [k] => Some ([], k)
  | k :: p' => (λ dk : path * string, (k :: dk.1, dk.2)) <$> split_last p'
  end.

(** ** Python comparisons as the checker uses them *)

(** [v != lit] where [lit] is a string literal ([b"..."] or ["..."]), as a
    truth value.  Python never equates [bytes] with [str], and numpy answers
    [True] when a number or a numeric array is compared with a string. *)
Definition py_ne (v lit : value) : bool :=
  match v, lit with
  | VBytes a, VBytes b => negb (bool_decide (a = b))
  | VStr a, VStr b => negb (bool_decide (a = b))
  | _, _ => true
  end.

(** The Python exceptions that occur. *)
Inductive exn := KeyError | ValueError | TypeError | IndexError | AttributeError.

(** The truth value of [v != 0] in an [if]: a one-element array behaves as its
    element, an empty array is false, and a longer array has no truth value
    ([ValueError]). *)
Definition ne_zero_truth (v : value) : exn + bool :=
  match v with
  | VNum x | VArr [x] => inr (scalar_ne x (SInt 0))
  | VArr [] => inr false
  | VArr _ => inl ValueError
  | VBytes _ | VStr _ => inr true
  end.

(** [np.any(v != [0, 0, -1])]: element-wise on three elements, broadcast for a
    scalar or a one-element array; an array of another length, or a string,
    does not compare element-wise and [!=] answers [True]. *)
Definition vector_ne_any (v : value) : bool :=
  match v with
  | VArr [a; b; c] =>
      scalar_ne a (SInt 0) || scalar_ne b (SInt 0) || scalar_ne c (SInt (-1))
  | VNum a | VArr [a] =>
      scalar_ne a (SInt 0) || scalar_ne a (SInt 0) || scalar_ne a (SInt (-1))
  | _ => true
  end.

(** ** The monad: file state, exceptions, and the correction branches taken *)

(** One constructor per correction branch of the checker (the body of an [if]
    that rewrites something, or the [except] arm that creates the sample's
    [depends_on]).  The checker logs a line in most of them; the trace below
    records all of them. *)
Inductive branch :=
| FixDefinition
| FixTwoThetaValue
| FixDetZVector
| FixTwoThetaDependsOn
| FixDetZDependsOn
| FixSampleDependsOn
| CreateSampleDependsOn
| FixAxisDependsOn (axis : string).

Record state := State { root : node; taken : list branch }.

Definition with_root (f : node → node) (s : state) : state :=
  State (f (root s)) (taken s).

Inductive outcome (A : Type) :=
| Returns (a : A) (s : state)
| Raises (e : exn) (s : state).
Arguments Returns {A} a s.
Arguments Raises {A} e s.

Definition M (A : Type) : Type := state → outcome A.

Definition ret {A} (a : A) : M A := λ s, Returns a s.

Definition bind {A B} (m : M A) (k : A → M B) : M B :=
  λ s, match m s with
       | Returns a s' => k a s'
       | Raises e s' => Raises e s'
       end.

Definition raise {A} (e : exn) : M A := λ s, Raises e s.

Declare Scope py_scope.
Delimit Scope py_scope with py.
Notation "'let*' x ':=' m 'in' k" := (bind m (λ x, k))
  (at level 10, x pattern, m at level 100, k at level 200) : py_scope.
Notation "m '>>' k" := (bind m (λ _, k))
  (at level 100, k at level 200, right associativity) : py_scope.
Open Scope py_scope.

(** [try: body / except KeyError: handler].  The handler starts from the file
    as the body left it. *)
Definition try_except_KeyError {A} (body handler : M A) : M A :=
  λ s, match body s with
       | Raises KeyError s' => handler s'
       | o => o
       end.

(** [if c: body] *)
Definition when (c : bool) (body : M unit) : M unit :=
  if c then body else ret tt.

(** [for x in xs: body] *)
Fixpoint for_each {A} (xs : list A) (body : A → M unit) : M unit :=
  match xs with
  | [] => ret tt
  | x :: xs' => body x >> for_each xs' body
  end.

Definition lift {A} (r : exn + A) : M A :=
  match r with
  | inl e => raise e
  | inr a => ret a
  end.

Definition take (b : branch) : M unit :=
  λ s, Returns tt (State (root s) (taken s ++ [b])).

(** ** h5py operations on handles

    A handle (an [h5py.Group] or [h5py.Dataset] object) is the path of the
    object from the root of the open file. *)

(** [g[name]] on a group; indexing a dataset by a name is a [ValueError]. *)
Definition getitem (h name : path) : M path :=
  λ s, match node_get h (root s) with
       | Some (Group _ _ as g) =>
           match node_get name g with
           | Some _ => Returns (h ++ name) s
           | None => Raises KeyError s
           end
       | _ => Raises ValueError s
       end.

(** [ds[()]] *)
Definition read (ver : h5py_version) (h : path) : M value :=
  λ s, match node_get h (root s) with
       | Some (Dataset d _) => Returns (dataset_read ver d) s
       | Some (Group _ _) => Raises TypeError s
       | None => Raises ValueError s
       end.

(** [obj.attrs[k]] *)
Definition attrs_get (h : path) (k : string) : M value :=
  λ s, match node_get h (root s) with
       | Some n =>
           match node_attrs n !! k with
           | Some v => Returns v s
           | None => Raises KeyError s
           end
       | None => Raises ValueError s
       end.

(** [dict(obj.attrs)] *)
Definition attrs_items (h : path) : M (gmap string value) :=
  λ s, match node_get h (root s) with
       | Some n => Returns (node_attrs n) s
       | None => Raises ValueError s
       end.

(** [obj.attrs[k] = v] *)
Definition attrs_set (h : path) (k : string) (v : value) : M unit :=
  λ s, match node_get h (root s) with
       | Some _ =>
           Returns tt (with_root (node_alter (set_attr k v) h) s)
       | None => Raises ValueError s
       end.

(** [del g[name]]: the last component of [name] is unlinked from the group
    that holds it. *)
Definition delitem (h name : path) : M unit :=
  λ s, match node_get h (root s) with
       | Some (Group _ _ as g) =>
           match node_get name g, split_last name with
           | Some _, Some (dir, k) =>
               Returns tt (with_root (node_alter (unlink k) (h ++ dir)) s)
           | _, _ => Raises KeyError s
           end
       | Some (Dataset _ _) => Raises TypeError s
       | None => Raises ValueError s
       end.

(** [g.create_dataset(k, data=data)]: a new dataset without attributes; the
    name must be free. *)
Definition create_dataset (h : path) (k : string) (data : value) : M path :=
  λ s, match node_get h (root s) with
       | Some (Group _ ms) =>
           match ms !! k with
           | None =>
               Returns (h ++ [k])
                 (with_root (node_alter (link k (Dataset data ∅)) h) s)
           | Some _ => Raises ValueError s
           end
       | Some (Dataset _ _) => Raises AttributeError s
       | None => Raises ValueError s
       end.

(** [g.create_group(k)]: a new empty group; the name must be free. *)
Definition create_group (h : path) (k : string) : M path :=
  λ s, match node_get h (root s) with
       | Some (Group _ ms) =>
           match ms !! k with
           | None =>
               Returns (h ++ [k])
                 (with_root (node_alter (link k (Group ∅ ∅)) h) s)
           | Some _ => Raises ValueError s
           end
       | Some (Dataset _ _) => Raises AttributeError s
       | None => Raises ValueError s
       end.

(** ** CheckTristanNexus.py *)

Module CheckTristanNexus.

Definition NXmx : value := VStr "NXmx".

Definition two_theta_target : string :=
  "/entry/instrument/detector/transformations/two_theta/two_theta".

Definition phi_target : string := "/entry/sample/transformations/phi".

(** [data=[(0.0)]] *)
Definition zero_array : value := VArr [SFloat (S754_zero false)].

(** [[0, 0, -1]] *)
Definition det_z_vector : value := VArr [SInt 0; SInt 0; SInt (-1)].

(** [check_definition(nxsfile)] *)
Definition check_definition (ver : h5py_version) (nxsfile : path) : M unit :=
  let* ds := getitem nxsfile ["entry"; "definition"] in
  let* definition := read ver ds in
  when (py_ne definition NXmx)
    (delitem nxsfile ["entry"; "definition"] >>
     let* entry := getitem nxsfile ["entry"] in
     let* _ := create_dataset entry "definition" NXmx in
     take FixDefinition).

(** The [try]/[except KeyError] at the head of
    [check_detector_transformations]: the name under which the two-theta
    group is found, and the group. *)
Definition find_two_theta (nxtransf : path) : M (string * path) :=
  try_except_KeyError
    (let* g := getitem nxtransf ["two_theta"] in ret ("two_theta", g))
    (let* g := getitem nxtransf ["twotheta"] in ret ("twotheta", g)).

(** Lines 41-50: [if two_theta[ds_name][()] != 0: ...], the dataset is deleted
    and created again with its attributes copied over. *)
Definition fix_two_theta_value (ver : h5py_version)
    (ds_name : string) (two_theta : path) : M unit :=
  let* ds := getitem two_theta [ds_name] in
  let* v := read ver ds in
  let* c := lift (ne_zero_truth v) in
  when c
    (take FixTwoThetaValue >>
     let* ds := getitem two_theta [ds_name] in
     let* d := attrs_items ds in
     delitem two_theta [ds_name] >>
     let* tt' := create_dataset two_theta ds_name zero_array in
     for_each (map_to_list d) (λ kv, attrs_set tt' kv.1 kv.2)).

(** [check_detector_transformations(nxtransf)] *)
Definition check_detector_transformations (ver : h5py_version)
    (nxtransf : path) : M unit :=
  let* (ds_name, two_theta) := find_two_theta nxtransf in
  fix_two_theta_value ver ds_name two_theta >>
  let* det_z := getitem nxtransf ["detector_z"; "det_z"] in
  (let* vector := attrs_get det_z "vector" in
   when (vector_ne_any vector)
     (take FixDetZVector >> attrs_set det_z "vector" det_z_vector)) >>
  (let* ds := getitem two_theta [ds_name] in
   let* dep := attrs_get ds "depends_on" in
   when (py_ne dep (VBytes "."))
     (take FixTwoThetaDependsOn >>
      let* ds := getitem two_theta [ds_name] in
      attrs_set ds "depends_on" (VBytes "."))) >>
  let* dep := attrs_get det_z "depends_on" in
  when (py_ne dep (VBytes two_theta_target))
    (take FixDetZDependsOn >>
     (* [det_z.attrs["depends_on"] == np.string_(...)]: the attribute is read
        and compared, and the result of the comparison is dropped. *)
     let* cur := attrs_get det_z "depends_on" in
     let _ := negb (py_ne cur (VBytes two_theta_target)) in
     ret tt).

(** [check_sample_depends_on(nxsample)] *)
Definition check_sample_depends_on (ver : h5py_version)
    (nxsample : path) : M unit :=
  try_except_KeyError
    (let* ds := getitem nxsample ["depends_on"] in
     let* dep := read ver ds in
     when (py_ne dep (VBytes phi_target))
       (take FixSampleDependsOn >>
        delitem nxsample ["depends_on"] >>
        let* _ := create_dataset nxsample "depends_on" (VBytes phi_target) in
        ret tt))
    (take CreateSampleDependsOn >>
     let* _ := create_dataset nxsample "depends_on" (VBytes phi_target) in
     ret tt).

(** One of the six [if nxtransf[axis].attrs["depends_on"] != target: ...]
    statements of [check_I19_dependency_tree]. *)
Definition fix_axis_depends_on (nxtransf : path) (axis target : string) : M unit :=
  let* ax := getitem nxtransf [axis] in
  let* dep := attrs_get ax "depends_on" in
  when (py_ne dep (VBytes target))
    (take (FixAxisDependsOn axis) >>
     let* ax := getitem nxtransf [axis] in
     attrs_set ax "depends_on" (VBytes target)).

(** [check_I19_dependency_tree(nxtransf)], in the order of the source. *)
Definition check_I19_dependency_tree (nxtransf : path) : M unit :=
  fix_axis_depends_on nxtransf "omega" "." >>
  fix_axis_depends_on nxtransf "kappa" "/entry/sample/transformations/omega" >>
  fix_axis_depends_on nxtransf "phi" "/entry/sample/transformations/kappa" >>
  fix_axis_depends_on nxtransf "sam_x" "/entry/sample/transformations/sam_y" >>
  fix_axis_depends_on nxtransf "sam_y" "/entry/sample/transformations/sam_z" >>
  fix_axis_depends_on nxtransf "sam_z" "/entry/sample/transformations/phi".

(** Lines 141-149 of [run_checks]: the [try] around the check of the
    detector transformations group at its current place, and the
    [except KeyError] that turns to the place it had in older files. *)
Definition check_detector (ver : h5py_version) (nxsfile : path) : M unit :=
  try_except_KeyError
    (let* g := getitem nxsfile ["entry"; "instrument"; "detector"; "transformations"] in
     check_detector_transformations ver g)
    (let* g := getitem nxsfile ["entry"; "instrument"; "transformations"] in
     check_detector_transformations ver g).

(** [run_checks(tristan_nexus_file)], from the point where the file is open
    as [nxsfile]; the handle of the file is the empty path. *)
Definition run_checks (ver : h5py_version) : M unit :=
  let nxsfile : path := [] in
  check_definition ver nxsfile >>
  check_detector ver nxsfile >>
  (let* g := getitem nxsfile ["entry"; "sample"] in
   check_sample_depends_on ver g) >>
  let* g := getitem nxsfile ["entry"; "sample"; "transformations"] in
  check_I19_dependency_tree g.

End CheckTristanNexus.


(** ** NexusWriter.py *)

Module NexusWriter.

(** The fields of the goniometer scope that [write_NXmx_nexus] reads. *)
Record goniometer_scope := Goniometer {
  axes : list string;
  starts : list scalar;
  ends : list scalar;
  increments : list scalar
}.

(** [xs.index(x)]: the first position of [x]. *)
Fixpoint list_index (x : string) (xs : list string) : option nat :=
  match xs with
  | [] => None
  | y :: ys => if bool_decide (y = x) then Some 0 else S <$> list_index x ys
  end.

(** [xs[i]] for a non-negative [i]. *)
Definition list_item {A} (xs : list A) (i : nat) : exn + A :=
  match xs !! i with
  | Some x => inr x
  | None => inl IndexError
  end.

(** [0.0] *)
Definition float_zero : scalar := SFloat (S754_zero false).

Section Writer.

(** The scopes are opaque to this module, and so is the scan range that
    [calculate_scan_range] returns. *)
Variables (Path DetectorScope ModuleScope SourceScope BeamScope
           AttenuatorScope ScanRange : Type).

(** [h5py.File(p, "r")["data"].shape] of an external data file. *)
Variable data_shape : Path → exn + list nat.

(** Imported from [nxs_write.data_tools] and [nxs_write]; their sources are
    not part of this development.  [calculate_scan_range] takes the two
    keyword arguments [axis_increment] and [n_images]. *)
Variable find_number_of_images : list Path → exn + nat.
Variable find_scan_axis : list string → list scalar → list scalar → exn + string.
Variable calculate_scan_range :
  scalar → scalar → option scalar → option nat → exn + ScanRange.

(** The writers of [nxs_write.NXclassWriters]. *)
Variable write_NXdata :
  path → list Path → goniometer_scope → string → string → ScanRange →
  string → option string → M unit.
Variable write_NXinstrument :
  path → BeamScope → AttenuatorScope → SourceScope → M unit.
Variable write_NXdetector :
  path → DetectorScope → string → string * nat → M unit.
Variable write_NXdetector_module :
  path → ModuleScope → string → DetectorScope → M unit.
Variable write_NXsource : path → SourceScope → M unit.
Variable write_NXsample :
  path → goniometer_scope → string → string → string → ScanRange → M unit.

(** Lines 59-64: the number of images written across the data files. *)
Definition number_of_images (datafiles : list Path) : exn + nat :=
  match datafiles with
  | [f] =>
      match data_shape f with
      | inr (n :: _) => inr n
      | inr [] => inl IndexError
      | inl e => inl e
      end
  | _ => find_number_of_images datafiles
  end.

(** Lines 71-82: the scan range of the oscillation axis. *)
Definition compute_scan_range (goniometer : goniometer_scope)
    (osc_axis : string) (num_images : nat) : exn + ScanRange :=
  match list_index osc_axis (axes goniometer) with
  | None => inl ValueError
  | Some idx =>
      match list_item (increments goniometer) idx with
      | inl e => inl e
      | inr increment =>
          match list_item (starts goniometer) idx,
                list_item (ends goniometer) idx with
          | inr start, inr end_ =>
              if scalar_ne increment float_zero
              then calculate_scan_range start end_ (Some increment) None
              else calculate_scan_range start end_ None (Some num_images)
          | inl e, _ => inl e
          | _, inl e => inl e
          end
      end
  end.

(** [call_writers(...)] *)
Definition call_writers (nxsfile : path) (datafiles : list Path)
    (coordinate_frame scan_axis : string) (scan_range : ScanRange)
    (data_type : string * nat) (goniometer : goniometer_scope)
    (detector : DetectorScope) (module : ModuleScope) (source : SourceScope)
    (beam : BeamScope) (attenuator : AttenuatorScope)
    (vds : option string) : M unit :=
  write_NXdata nxsfile datafiles goniometer data_type.1 coordinate_frame
    scan_range scan_axis vds >>
  write_NXinstrument nxsfile beam attenuator source >>
  write_NXdetector nxsfile detector coordinate_frame data_type >>
  write_NXdetector_module nxsfile module coordinate_frame detector >>
  write_NXsource nxsfile source >>
  write_NXsample nxsfile goniometer coordinate_frame data_type.1 scan_axis
    scan_range.

(** [if t is not None: nxentry.create_dataset(name, data=np.string_(t))] *)
Definition write_timestamp (nxentry : path) (name : string)
    (t : option string) : M unit :=
  match t with
  | Some t => let* _ := create_dataset nxentry name (VBytes t) in ret tt
  | None => ret tt
  end.

(** Lines 84-117: the entry with its definition, the writers, the
    timestamps. *)
Definition write_entry (nxsfile : path) (datafiles : list Path)
    (goniometer : goniometer_scope) (detector : DetectorScope)
    (module : ModuleScope) (source : SourceScope) (beam : BeamScope)
    (attenuator : AttenuatorScope) (timestamps : option string * option string)
    (coordinate_frame : string) (vds : option string)
    (data_type : string * nat) (osc_axis : string) (scan_range : ScanRange)
    : M unit :=
  attrs_set nxsfile "default" (VStr "entry") >>
  let* nxentry := create_group nxsfile "entry" in
  attrs_set nxentry "NX_class" (VBytes "NXentry") >>
  attrs_set nxentry "default" (VBytes "data") >>
  let* _ := create_dataset nxentry "definition" (VBytes "NXmx") in
  call_writers nxsfile datafiles coordinate_frame osc_axis scan_range
    data_type goniometer detector module source beam attenuator vds >>
  write_timestamp nxentry "start_time" timestamps.1 >>
  write_timestamp nxentry "end_time" timestamps.2.

(** [write_NXmx_nexus(...)] *)
Definition write_NXmx_nexus (nxsfile : path) (datafiles : list Path)
    (goniometer : goniometer_scope) (detector : DetectorScope)
    (module : ModuleScope) (source : SourceScope) (beam : BeamScope)
    (attenuator : AttenuatorScope) (timestamps : option string * option string)
    (coordinate_frame : string) (vds : option string) : M unit :=
  let* num_images := lift (number_of_images datafiles) in
  let data_type := ("images", num_images) in
  let* osc_axis :=
    lift (find_scan_axis (axes goniometer) (starts goniometer) (ends goniometer)) in
  let* scan_range := lift (compute_scan_range goniometer osc_axis num_images) in
  write_entry nxsfile datafiles goniometer detector module source beam
    attenuator timestamps coordinate_frame vds data_type osc_axis scan_range.

End Writer.

End NexusWriter.

(** ** The writers of [NXclassWriters], from the specification *)

Module SpecWriters.

Import CheckTristanNexus NexusWriter.

(** [g.create_dataset(name, data=v)] followed by one [attrs[k] = x] per
    attribute. *)
Definition create_axis (g : path) (name : string) (v : value)
    (attributes : list (string * value)) : M unit :=
  let* ds := create_dataset g name v in
  for_each attributes (λ kv, attrs_set ds kv.1 kv.2).

Definition translation : value := VBytes "translation".
Definition rotation : value := VBytes "rotation".

(** Modelled from the spec: [write_NXdata] of [nxs_write/NXclassWriters.py] is
    missing.  Section 4.3 step 4 has it emit the scan/data description under
    the entry; only the group is kept. *)
Definition write_NXdata (nxsfile : path) (datafiles : list string)
    (goniometer : goniometer_scope) (data_type coordinate_frame : string)
    (scan_range : list scalar) (scan_axis : string) (vds : option string) : M unit :=
  let* entry := getitem nxsfile ["entry"] in
  let* _ := create_group entry "data" in
  ret tt.

(** Modelled from the spec: [write_NXinstrument] is missing.  It emits the
    instrument description under the entry (section 4.3 step 4). *)
Definition write_NXinstrument (nxsfile : path) (beam attenuator source : unit) : M unit :=
  let* entry := getitem nxsfile ["entry"] in
  let* _ := create_group entry "instrument" in
  ret tt.

(** Modelled from the spec: [write_NXdetector] is missing.  Section 6 fixes
    the layout [entry/instrument/detector/transformations/...] and the
    canonical values: the two-theta axis at value 0 and at the root of the
    chain, the detector z axis with vector [[0, 0, -1]] depending on it. *)
Definition write_NXdetector (nxsfile : path) (detector : unit)
    (coordinate_frame : string) (data_type : string * nat) : M unit :=
  let* instrument := getitem nxsfile ["entry"; "instrument"] in
  let* det := create_group instrument "detector" in
  let* transformations := create_group det "transformations" in
  let* two_theta := create_group transformations "two_theta" in
  create_axis two_theta "two_theta" zero_array
    [("depends_on", VBytes "."); ("transformation_type", rotation);
     ("units", VBytes "deg")] >>
  let* detector_z := create_group transformations "detector_z" in
  create_axis detector_z "det_z" (VArr [SInt 250])
    [("depends_on", VBytes two_theta_target); ("transformation_type", translation);
     ("units", VBytes "mm"); ("vector", det_z_vector)].

(** Modelled from the spec: [write_NXdetector_module] is missing.  It emits
    the detector's module (section 4.3 step 4). *)
Definition write_NXdetector_module (nxsfile : path) (module : unit)
    (coordinate_frame : string) (detector : unit) : M unit :=
  let* det := getitem nxsfile ["entry"; "instrument"; "detector"] in
  let* _ := create_group det "module" in
  ret tt.

(** Modelled from the spec: [write_NXsource] is missing.  It emits the source
    group (section 4.3 step 4). *)
Definition write_NXsource (nxsfile : path) (source : unit) : M unit :=
  let* entry := getitem nxsfile ["entry"] in
  let* _ := create_group entry "source" in
  ret tt.

(** Modelled from the spec: [write_NXsample] is missing.  Section 6 fixes
    [entry/sample/depends_on] at ["/entry/sample/transformations/phi"] and
    the six axes under [entry/sample/transformations] with the dependency
    order x, y, z, phi, kappa, omega. *)
Definition write_NXsample (nxsfile : path) (goniometer : goniometer_scope)
    (coordinate_frame data_type scan_axis : string) (scan_range : list scalar) : M unit :=
  let* entry := getitem nxsfile ["entry"] in
  let* sample := create_group entry "sample" in
  let* _ := create_dataset sample "depends_on" (VBytes phi_target) in
  let* transformations := create_group sample "transformations" in
  let axis (name : string) (kind : value) (dep : string) : M unit :=
    create_axis transformations name (VArr [SInt 0])
      [("depends_on", VBytes dep); ("transformation_type", kind)] in
  axis "sam_x" translation "/entry/sample/transformations/sam_y" >>
  axis "sam_y" translation "/entry/sample/transformations/sam_z" >>
  axis "sam_z" translation "/entry/sample/transformations/phi" >>
  axis "phi" rotation "/entry/sample/transformations/kappa" >>
  axis "kappa" rotation "/entry/sample/transformations/omega" >>
  axis "omega" rotation ".".

(** Modelled from the spec: [find_scan_axis] is missing.  Section 4.3 step 1
    selects the one axis that moves and fails when none or several do. *)
Definition find_scan_axis (axes : list string) (starts ends : list scalar) : exn + string :=
  match filter (λ a : string * (scalar * scalar), scalar_ne a.2.1 a.2.2 = true)
               (zip axes (zip starts ends)) with
  | [a] => inr a.1
  | _ => inl ValueError
  end.

(** Modelled from the spec: [calculate_scan_range] is missing.  The positions
    are not computed here; the result keeps the two ends of the range. *)
Definition calculate_scan_range (start end_ : scalar)
    (axis_increment : option scalar) (n_images : option nat) : exn + list scalar :=
  inr [start; end_].

(** Modelled from the spec: [find_number_of_images] is missing; section 5 has
    it sum the frame counts of the files. *)
Definition find_number_of_images (shape : string → exn + list nat)
    (datafiles : list string) : exn + nat :=
  foldr (λ f acc,
           match shape f, acc with
           | inr (n :: _), inr m => inr (n + m)
           | inl e, _ => inl e
           | _, inl e => inl e
           | inr [], _ => inl IndexError
           end) (inr 0) datafiles.

(** One data file of ten 4 x 4 images. *)
Definition data_shape (f : string) : exn + list nat := inr [10; 4; 4].

(** An omega scan from 0 to 90 degrees with a declared increment. *)
Definition goniometer : goniometer_scope :=
  {| axes := ["omega"; "kappa"; "phi"; "sam_x"; "sam_y"; "sam_z"];
     starts := [SInt 0; SInt 0; SInt 0; SInt 0; SInt 0; SInt 0];
     ends := [SInt 90; SInt 0; SInt 0; SInt 0; SInt 0; SInt 0];
     increments := [SInt 9; SInt 0; SInt 0; SInt 0; SInt 0; SInt 0] |}.

(** [write_NXmx_nexus] with these writers, on these inputs. *)
Definition write_example : M unit :=
  write_NXmx_nexus string unit unit unit unit unit (list scalar)
    data_shape (find_number_of_images data_shape) find_scan_axis
    calculate_scan_range write_NXdata write_NXinstrument write_NXdetector
    write_NXdetector_module write_NXsource write_NXsample
    [] ["data_000001.h5"] goniometer () () () () () (None, None) "mcstas" None.

End SpecWriters.

(** ** Example files *)

Module Examples.

Import CheckTristanNexus.

(** A file that was just created and is still empty. *)
Definition empty_file : state := State (Group ∅ ∅) [].

Definition final_state {A} (o : outcome A) : state :=
  match o with
  | Returns _ s => s
  | Raises _ s => s
  end.

(** The file [SpecWriters.write_example] leaves behind, opened afresh. *)
Definition fresh_file : state :=
  State (root (final_state (SpecWriters.write_example empty_file))) [].

Definition det_z_path : path :=
  ["entry"; "instrument"; "detector"; "transformations"; "detector_z"; "det_z"].

(** The same file with the dependency of [det_z] misspelt: it stops one
    component short of the dataset. *)
Definition typo_target : string :=
  "/entry/instrument/detector/transformations/two_theta".

Definition typo_file : state :=
  with_root (node_alter (set_attr "depends_on" (VBytes typo_target)) det_z_path)
    fresh_file.

(** [5.0] *)
Definition five : scalar := SFloat (S754_finite false 5629499534213120 (-50)).

(** A detector transformations group whose two-theta arm is at 5 degrees and
    depends on the detector z axis. *)
Definition tilted_group : state :=
  State
    (Group ∅
       {[ "two_theta" :=
            Group ∅
              {[ "two_theta" :=
                   Dataset (VArr [five])
                     {[ "depends_on" :=
                          VBytes "/entry/instrument/detector/transformations/detector_z/det_z";
                        "units" := VBytes "deg" ]} ]};
          "detector_z" :=
            Group ∅
              {[ "det_z" :=
                   Dataset (VArr [SInt 250])
                     {[ "depends_on" := VBytes two_theta_target;
                        "vector" := det_z_vector ]} ]} ]})
    [].

(** A detector transformations group that is canonical except that the
    dependency of [det_z] is misspelt. *)
Definition misspelt_group : state :=
  State
    (Group ∅
       {[ "two_theta" :=
            Group ∅
              {[ "two_theta" :=
                   Dataset zero_array
                     {[ "depends_on" := VBytes "."; "units" := VBytes "deg" ]} ]};
          "detector_z" :=
            Group ∅
              {[ "det_z" :=
                   Dataset (VArr [SInt 250])
                     {[ "depends_on" := VBytes typo_target;
                        "vector" := det_z_vector ]} ]} ]})
    [].

(** A file in the current layout whose detector transformations group lacks
    [detector_z], and which also carries a complete group at the legacy
    place, its two-theta arm at 5 degrees. *)
Definition legacy_path : path := ["entry"; "instrument"; "transformations"].
Definition primary_path : path :=
  ["entry"; "instrument"; "detector"; "transformations"].

Definition two_places_file : state :=
  with_root
    (λ r,
       node_alter (link "transformations" (root tilted_group))
         ["entry"; "instrument"]
         (node_alter (unlink "detector_z") primary_path r))
    fresh_file.

End Examples.

(** ** Vocabulary of the properties *)

Import CheckTristanNexus Examples.

(** What [check_definition] does to the entry group when it corrects. *)
Definition rewrite_definition (entry : node) : node :=
  link "definition" (Dataset NXmx ∅) (unlink "definition" entry).

(** The sample's [depends_on] dataset as [check_sample_depends_on] writes
    it, and what the function does to the sample group when it creates the
    dataset and when it corrects it. *)
Definition phi_dataset : node := Dataset (VBytes phi_target) ∅.

Definition create_depends_on (sample : node) : node :=
  link "depends_on" phi_dataset sample.

Definition recreate_depends_on (sample : node) : node :=
  link "depends_on" phi_dataset (unlink "depends_on" sample).

(** The canonical I19-2 goniometer chain: each axis with the axis it
    depends on, from the sample outwards; omega ends the chain at ".". *)
Definition I19_chain : list (string * string) :=
  [("sam_x", "/entry/sample/transformations/sam_y");
   ("sam_y", "/entry/sample/transformations/sam_z");
   ("sam_z", "/entry/sample/transformations/phi");
   ("phi", "/entry/sample/transformations/kappa");
   ("kappa", "/entry/sample/transformations/omega");
   ("omega", ".")].

(** The same pairs in the order [check_I19_dependency_tree] visits them. *)
Definition I19_steps : list (string * string) :=
  [("omega", ".");
   ("kappa", "/entry/sample/transformations/omega");
   ("phi", "/entry/sample/transformations/kappa");
   ("sam_x", "/entry/sample/transformations/sam_y");
   ("sam_y", "/entry/sample/transformations/sam_z");
   ("sam_z", "/entry/sample/transformations/phi")].

(** The object at [p] carries attribute [k] with value [v]. *)
Definition has_attr (r : node) (p : path) (k : string) (v : value) : Prop :=
  ∃ n, node_get p r = Some n ∧ node_attrs n !! k = Some v.

(** The recreated two-theta dataset: value [[0.0]], the attributes [a]. *)
Definition recreated (a : gmap string value) (n : node) : node :=
  Dataset zero_array a.

(** [detector_z/det_z] *)
Definition det_z_name : path := ["detector_z"; "det_z"].

(** A value equal to 0: the number is [== 0], or the array has elements and
    every one of them is [== 0]. *)
Definition value_is_zero (v : value) : bool :=
  match v with
  | VNum x => scalar_eqb x (SInt 0)
  | VArr (x :: xs) => forallb (λ x, scalar_eqb x (SInt 0)) (x :: xs)
  | _ => false
  end.

(** An attribute that holds one string, [bytes] or [str]. *)
Definition is_text (v : value) : Prop := is_Some (value_text v).

(** A three-element array equal to [[0, 0, -1]], element by element. *)
Definition vector_is_canonical (v : value) : bool :=
  match v with
  | VArr [a; b; c] =>
      scalar_eqb a (SInt 0) && scalar_eqb b (SInt 0) && scalar_eqb c (SInt (-1))
  | _ => false
  end.

(** The [except KeyError] arm of [check_detector], run on the file as the
    [try] arm left it. *)
Definition legacy_attempt (ver : h5py_version) : M unit :=
  let* g := getitem [] legacy_path in
  check_detector_transformations ver g.

(** The value of the two-theta dataset of a transformations group. *)
Definition two_theta_value (g : option node) : option value :=
  match g with
  | Some n =>
      match node_get ["two_theta"; "two_theta"] n with
      | Some (Dataset v _) => Some v
      | _ => None
      end
  | None => None
  end.

Definition sample_transformations : path := ["entry"; "sample"; "transformations"].

(** ** NexusWriter.py: [write_nexus_demo] *)

Module NexusWriterDemo.

Import NexusWriter.

(** The scan range of the demo writer: the array [calculate_scan_range]
    returns, or the pair [(start, end)] of an events acquisition. *)
Inductive scan_range :=
| Positions (xs : list scalar)
| Interval (start end_ : scalar).

(** [len(scan_range)] *)
Definition scan_range_len (r : scan_range) : nat :=
  match r with
  | Positions xs => length xs
  | Interval _ _ => 2
  end.

(** What a call can come to besides the outcomes of the monad: Python raises
    [UnboundLocalError] when a local variable is read that no branch has
    assigned. *)
Inductive demo_outcome :=
| Finished (o : outcome unit)
| UnboundLocalError (name : string) (s : state).

Section Demo.

Variables (Path DetectorScope ModuleScope SourceScope BeamScope
           AttenuatorScope : Type).

(** Imported from [nxs_write] and [nxs_write.data_tools]; their sources are
    not part of this development.  [calculate_scan_range] returns an array. *)
Variable find_scan_axis : list string → list scalar → list scalar → exn + string.
Variable calculate_scan_range :
  scalar → scalar → option scalar → option nat → exn + list scalar.
Variable data_writer :
  list Path → string * option nat → DetectorScope → scan_range → M unit.
(** [data_writer] is given the detector scope: the call reads its
    [image_size]. *)

(** The writers of [nxs_write.NXclassWriters].  The count of the data type
    is [None] when an events file is written without [--force]. *)
Variable write_NXdata :
  path → list Path → goniometer_scope → string → string → scan_range →
  string → option string → M unit.
Variable write_NXinstrument :
  path → BeamScope → AttenuatorScope → SourceScope → M unit.
Variable write_NXdetector :
  path → DetectorScope → string → string * option nat → M unit.
Variable write_NXdetector_module :
  path → ModuleScope → string → DetectorScope → M unit.
Variable write_NXsource : path → SourceScope → M unit.
Variable write_NXsample :
  path → goniometer_scope → string → string → string → scan_range → M unit.

(** [call_writers(...)] as [write_nexus_demo] calls it. *)
Definition call_writers (nxsfile : path) (datafiles : list Path)
    (coordinate_frame scan_axis : string) (scan_range : scan_range)
    (data_type : string * option nat) (goniometer : goniometer_scope)
    (detector : DetectorScope) (module : ModuleScope) (source : SourceScope)
    (beam : BeamScope) (attenuator : AttenuatorScope)
    (vds : option string) : M unit :=
  write_NXdata nxsfile datafiles goniometer data_type.1 coordinate_frame
    scan_range scan_axis vds >>
  write_NXinstrument nxsfile beam attenuator source >>
  write_NXdetector nxsfile detector coordinate_frame data_type >>
  write_NXdetector_module nxsfile module coordinate_frame detector >>
  write_NXsource nxsfile source >>
  write_NXsample nxsfile goniometer coordinate_frame data_type.1 scan_axis
    scan_range.

(** Lines 156-171: the scan range and the data type after the [if]/[elif];
    [inr None] when neither branch ran, so that [scan_range] is unbound. *)
Definition demo_scan_range (goniometer : goniometer_scope) (idx : nat)
    (data_type : string * option nat)
    : exn + option (scan_range * (string * option nat)) :=
  if bool_decide (data_type.1 = "images") then
    match data_type.2 with
    | None =>
        match list_item (starts goniometer) idx,
              list_item (ends goniometer) idx,
              list_item (increments goniometer) idx with
        | inr start, inr end_, inr increment =>
            match calculate_scan_range start end_ (Some increment) None with
            | inr xs => inr (Some (Positions xs, ("images", Some (length xs))))
            | inl e => inl e
            end
        | inl e, _, _ => inl e
        | _, inl e, _ => inl e
        | _, _, inl e => inl e
        end
    | Some n =>
        match list_item (starts goniometer) idx,
              list_item (ends goniometer) idx with
        | inr start, inr end_ =>
            match calculate_scan_range start end_ None (Some n) with
            | inr xs => inr (Some (Positions xs, data_type))
            | inl e => inl e
            end
        | inl e, _ => inl e
        | _, inl e => inl e
        end
    end
  else if bool_decide (data_type.1 = "events") then
    match list_item (starts goniometer) idx,
          list_item (ends goniometer) idx with
    | inr start, inr end_ => inr (Some (Interval start end_, data_type))
    | inl e, _ => inl e
    | _, inl e => inl e
    end
  else inr None.

(** [write_nexus_demo(...)] *)
Definition write_nexus_demo (nxsfile : path) (datafiles : list Path)
    (data_type : string * option nat) (coordinate_frame : string)
    (goniometer : goniometer_scope) (detector : DetectorScope)
    (module : ModuleScope) (source : SourceScope) (beam : BeamScope)
    (attenuator : AttenuatorScope) (vds : option string)
    : state → demo_outcome :=
  λ s,
    match find_scan_axis (axes goniometer) (starts goniometer) (ends goniometer) with
    | inl e => Finished (Raises e s)
    | inr osc_axis =>
        match list_index osc_axis (axes goniometer) with
        | None => Finished (Raises ValueError s)
        | Some idx =>
            match demo_scan_range goniometer idx data_type with
            | inl e => Finished (Raises e s)
            | inr None => UnboundLocalError "scan_range" s
            | inr (Some (scan_range, data_type)) =>
                Finished
                  ((data_writer datafiles data_type detector scan_range >>
                    call_writers nxsfile datafiles coordinate_frame osc_axis
                      scan_range data_type goniometer detector module source
                      beam attenuator vds) s)
            end
        end
    end.

End Demo.

End NexusWriterDemo.

(** ** command_line/__init__.py *)

Module CommandLine.

Import Stdlib.Strings.Ascii.

(** [needle in hay] on strings. *)
Fixpoint contains (needle hay : string) : bool :=
  String.prefix needle hay ||
  match hay with
  | EmptyString => false
  | String _ hay' => contains needle hay'
  end.

(** [s.rfind(c)]: the last position of the character, if any. *)
Fixpoint rfind (c : ascii) (s : string) : option nat :=
  match s with
  | EmptyString => None
  | String a s' =>
      match rfind c s' with
      | Some i => Some (S i)
      | None => if bool_decide (a = c) then Some 0 else None
      end
  end.

(** [s[:n]] and [s[n:]] *)
Fixpoint string_take (n : nat) (s : string) : string :=
  match n, s with
  | S n', String a s' => String a (string_take n' s')
  | _, _ => EmptyString
  end.

Fixpoint string_drop (n : nat) (s : string) : string :=
  match n, s with
  | S n', String _ s' => string_drop n' s'
  | _, _ => s
  end.

(** [PurePath.name] of a resolved path: what follows the last slash. *)
Definition path_name (p : string) : string :=
  match rfind "/"%char p with
  | Some i => string_drop (S i) p
  | None => p
  end.

(** The position at which pathlib splits a name into stem and suffix: the
    last dot, unless it is the first or the last character. *)
Definition suffix_at (name : string) : option nat :=
  match rfind "."%char name with
  | Some i =>
      if bool_decide (0 < i ∧ i < String.length name - 1) then Some i else None
  | None => None
  end.

(** [PurePath.suffix] and [PurePath.stem] *)
Definition suffix (name : string) : string :=
  match suffix_at name with
  | Some i => string_drop i name
  | None => ""
  end.

Definition stem (name : string) : string :=
  match suffix_at name with
  | Some i => string_take i name
  | None => name
  end.

(** [[p(v) for v in values].index(True)] *)
Fixpoint index_where (p : string → bool) (values : list string) : option nat :=
  match values with
  | [] => None
  | v :: vs => if p v then Some 0 else S <$> index_where p vs
  end.

Section CheckFileExtension.

(** [str(Path(v).expanduser().resolve())]: it depends on the home directory,
    the working directory and the links of the file system. *)
Variable resolve : string → string.

(** The message [_CheckFileExtension] prints. *)
Definition invalid_extension_message (ext stem_ : string) : string :=
  "You specified an invalid extension " +:+ ext +:+ " for the output file." +:+
  String "010" ("It will be saved to " +:+ stem_ +:+ ".nxs instead.").

(** [_CheckFileExtension.__call__]: the values stored in the namespace, and
    what was printed. *)
Definition check_file_extension (values : list string)
    : list string * list string :=
  match index_where (contains "filename") values with
  | Some i =>
      match values !! i with
      | Some v =>
          let fname := path_name (resolve v) in
          let ext := suffix fname in
          if bool_decide (ext ≠ ".h5") && bool_decide (ext ≠ ".nxs")
          then (<[i := stem fname +:+ ".nxs"]> values,
                [invalid_extension_message ext (stem fname)])
          else (values, [])
      | None => (values, [])
      end
  | None => (values, [])
  end.

End CheckFileExtension.

Section AddTristanSpec.

(** The values the scopes hold are opaque here. *)
Variable V : Type.

(** The names [getattr] finds on every scope whatever it holds: the
    attributes of the class [scope_extract] and of [object]. *)
Variable class_attribute : string → bool.

(** [getattr(scope, name, sentinel) is not sentinel], on the [__dict__] of
    the scope. *)
Definition has_attribute (scope : gmap string V) (name : string) : bool :=
  bool_decide (is_Some (scope !! name)) || class_attribute name.

(** [scope.__inject__(name, value)]: a new attribute is set; a name the scope
    has already raises [AttributeError] and nothing is replaced. *)
Definition inject (scope : gmap string V) (name : string) (value : V)
    : exn + gmap string V :=
  if has_attribute scope name then inl AttributeError
  else inr (<[name := value]> scope).

(** [add_tristan_spec(detector, tristanSpec)]: [items] are
    [tristanSpec.__dict__.items()] in their order; the result is the
    exception raised, if any, and the [__dict__] of the detector scope
    afterwards. *)
Fixpoint add_tristan_spec (detector : gmap string V)
    (items : list (string * V)) : option exn * gmap string V :=
  match items with
  | [] => (None, detector)
  | (k, v) :: items' =>
      if contains "__phil" k then add_tristan_spec detector items'
      else match inject detector k v with
           | inr detector' => add_tristan_spec detector' items'
           | inl e => (Some e, detector)
           end
  end.

End AddTristanSpec.

End CommandLine.

(** ** Vocabulary of the further properties *)

(** Two names part ways: they share a prefix and differ in the component
    that follows it.  Neither is then a prefix of the other. *)
Definition forks (p q : path) : Prop :=
  ∃ c k k' p' q', p = c ++ k :: p' ∧ q = c ++ k' :: q' ∧ k ≠ k'.

(** The file as [check_detector_transformations] leaves it: [c] tells
    whether the two-theta value was corrected, [vne] whether the vector of
    [det_z] was, [a] are the attributes of the two-theta dataset before. *)
Definition detector_repaired (h : path) (ds : string) (a : gmap string value)
    (c vne : bool) (r : node) : node :=
  let r1 := if c then node_alter (recreated a) (h ++ [ds; ds]) r else r in
  let r2 := if vne
            then node_alter (set_attr "vector" det_z_vector) (h ++ det_z_name) r1
            else r1 in
  node_alter (set_attr "depends_on" (VBytes ".")) (h ++ [ds; ds]) r2.

(** The correction branches [check_detector_transformations] enters, in
    order: [dep0] is the dependency of two-theta before, [dep] that of
    [det_z] if it has one. *)
Definition detector_branches (c vne : bool) (dep0 : value)
    (dep : option value) : list branch :=
  (if c then [FixTwoThetaValue] else []) ++
  (if vne then [FixDetZVector] else []) ++
  (if py_ne dep0 (VBytes ".") then [FixTwoThetaDependsOn] else []) ++
  match dep with
  | Some dep => if py_ne dep (VBytes two_theta_target) then [FixDetZDependsOn] else []
  | None => []
  end.

(** The six axes of the goniometer are members of the group at [h], each
    with a [depends_on] attribute. *)
Definition I19_axes_present (h : path) (r : node) : Prop :=
  ∀ axis, axis ∈ I19_chain.*1 →
    ∃ n, node_get (h ++ [axis]) r = Some n ∧
         is_Some (node_attrs n !! "depends_on").

(** ** Further example files and inputs *)

(** The tilted group after a run of the detector check, opened afresh. *)
Definition settled_group : state :=
  State (root (final_state (check_detector_transformations H5py3 [] tilted_group))) [].

(** The tilted group without [detector_z]. *)
Definition no_det_z_group : state :=
  State (node_alter (unlink "detector_z") [] (root tilted_group)) [].

(** The tilted group with two numbers in the two-theta dataset. *)
Definition two_values_group : state :=
  State
    (node_alter (λ _, Dataset (VArr [five; five]) {[ "depends_on" := VBytes "." ]})
       ["two_theta"; "two_theta"] (root tilted_group))
    [].

(** A written file whose goniometer chain is broken at [phi]. *)
Definition broken_chain_file : state :=
  with_root
    (node_alter (set_attr "depends_on" (VBytes "."))
       (sample_transformations ++ ["phi"]))
    fresh_file.

(** A written file after a run of the checks under h5py 2, opened afresh. *)
Definition canonical_file : state :=
  State (root (final_state (run_checks H5py2 fresh_file))) [].

(** A goniometer none of whose axes moves. *)
Definition still_goniometer : NexusWriter.goniometer_scope :=
  {| NexusWriter.axes := ["omega"; "phi"];
     NexusWriter.starts := [SInt 0; SInt 0];
     NexusWriter.ends := [SInt 0; SInt 0];
     NexusWriter.increments := [SInt 0; SInt 0] |}.

(** [write_NXmx_nexus] with the writers of the specification, for a
    goniometer. *)
Definition write_with (goniometer : NexusWriter.goniometer_scope) : M unit :=
  NexusWriter.write_NXmx_nexus string unit unit unit unit unit (list scalar)
    SpecWriters.data_shape
    (SpecWriters.find_number_of_images SpecWriters.data_shape)
    SpecWriters.find_scan_axis SpecWriters.calculate_scan_range
    SpecWriters.write_NXdata SpecWriters.write_NXinstrument
    SpecWriters.write_NXdetector SpecWriters.write_NXdetector_module
    SpecWriters.write_NXsource SpecWriters.write_NXsample
    [] ["data_000001.h5"] goniometer () () () () () (None, None) "mcstas" None.

(** [write_nexus_demo] on the example goniometer, with a data writer and
    writers that write nothing. *)
Definition demo_with (data_type : string * option nat)
    : state → NexusWriterDemo.demo_outcome :=
  NexusWriterDemo.write_nexus_demo string unit unit unit unit unit
    SpecWriters.find_scan_axis SpecWriters.calculate_scan_range
    (λ _ _ _ _, ret tt) (λ _ _ _ _ _ _ _ _, ret tt) (λ _ _ _ _, ret tt)
    (λ _ _ _ _, ret tt) (λ _ _ _ _, ret tt) (λ _ _, ret tt)
    (λ _ _ _ _ _ _, ret tt)
    [] ["data_000001.h5"] data_type "mcstas" SpecWriters.goniometer
    () () () () () None.

(** The tilted group with the vector of [det_z] pointing the other way. *)
Definition skewed_group : state :=
  State
    (node_alter (set_attr "vector" (VArr [SInt 0; SInt 0; SInt 1])) det_z_name
       (root tilted_group))
    [].

(** The tilted group with two-theta already at the root of the chain: its
    value is its only discrepancy. *)
Definition offset_group : state :=
  State
    (node_alter (set_attr "depends_on" (VBytes ".")) ["two_theta"; "two_theta"]
       (root tilted_group))
    [].

(** An omega scan from 0 to 90 degrees without a declared increment. *)
Definition counted_goniometer : NexusWriter.goniometer_scope :=
  {| NexusWriter.axes := ["omega"; "kappa"; "phi"; "sam_x"; "sam_y"; "sam_z"];
     NexusWriter.starts := [SInt 0; SInt 0; SInt 0; SInt 0; SInt 0; SInt 0];
     NexusWriter.ends := [SInt 90; SInt 0; SInt 0; SInt 0; SInt 0; SInt 0];
     NexusWriter.increments := [SInt 0; SInt 0; SInt 0; SInt 0; SInt 0; SInt 0] |}.

(** A scan range that is the record of how it was asked for: the arguments
    of the call of [calculate_scan_range]. *)
Definition asked_range : Type := scalar * scalar * option scalar * option nat.

Definition ask_scan_range (start end_ : scalar) (axis_increment : option scalar)
    (n_images : option nat) : exn + asked_range :=
  inr (start, end_, axis_increment, n_images).

(** [write_NXmx_nexus] on one data file of ten images, with that
    [calculate_scan_range], for a goniometer. *)
Definition write_asked (goniometer : NexusWriter.goniometer_scope) : M unit :=
  NexusWriter.write_NXmx_nexus string unit unit unit unit unit asked_range
    SpecWriters.data_shape
    (SpecWriters.find_number_of_images SpecWriters.data_shape)
    SpecWriters.find_scan_axis ask_scan_range
    (λ f d g t c _ a v, SpecWriters.write_NXdata f d g t c [] a v)
    SpecWriters.write_NXinstrument SpecWriters.write_NXdetector
    SpecWriters.write_NXdetector_module SpecWriters.write_NXsource
    (λ f g c t a _, SpecWriters.write_NXsample f g c t a [])
    [] ["data_000001.h5"] goniometer () () () () () (None, None) "mcstas" None.

(** Lines 84-117 in that run, for a data type, a scan axis and a scan
    range. *)
Definition entry_asked (data_type : string * nat) (osc_axis : string)
    (scan_range : asked_range) : M unit :=
  NexusWriter.write_entry string unit unit unit unit unit asked_range
    (λ f d g t c _ a v, SpecWriters.write_NXdata f d g t c [] a v)
    SpecWriters.write_NXinstrument SpecWriters.write_NXdetector
    SpecWriters.write_NXdetector_module SpecWriters.write_NXsource
    (λ f g c t a _, SpecWriters.write_NXsample f g c t a [])
    [] ["data_000001.h5"] counted_goniometer () () () () () (None, None)
    "mcstas" None data_type osc_axis scan_range.

(** A detector scope and the items of a Tristan scope. *)
Definition detector_scope : gmap string string :=
  {[ "__phil_name__" := "detector"; "description" := "Tristan 10M" ]}.

Definition tristan_items : list (string * string) :=
  [("__phil_name__", "tristanSpec"); ("detector_tick", "1562500ps");
   ("detector_frequency", "6.4e8Hz"); ("timeslice_rollover", "18")].

Definition scope_class_attribute (name : string) : bool :=
  bool_decide (name ∈ ["__inject__"; "__phil_path__"; "__phil_get__";
                       "__phil_set__"; "__init__"; "__class__"; "__dict__"]).

(** Relative names resolved in a home directory. *)
Definition resolve_in_home (v : string) : string := "/home/user/" +:+ v.

(** The values of a command line. *)
Definition phil_args : list string :=
  ["input.detector=tristan"; "output.filename=scan.txt"; "filename=spare.h5"].

(** * Properties *)

(** ** Names and the objects they resolve to *)

Section Paths.

Implicit Types (p q : path) (n c : node) (f g : node → node).

Lemma node_get_app p q n :
  node_get (p ++ q) n = node_get p n ≫= node_get q.
Proof.
  revert n. induction p as [|k p IH]; intros n; [done|].
  destruct n as [d a|a ms]; [done|]. simpl.
  destruct (ms !! k) as [c|]; [apply IH|done].
Qed.

Lemma node_alter_app f p q n :
  node_alter f (p ++ q) n = node_alter (node_alter f q) p n.
Proof.
  revert n. induction p as [|k p IH]; intros n; [done|].
  destruct n as [d a|a ms]; [done|]. simpl. f_equal.
  apply alter_ext. intros c _. apply IH.
Qed.

Lemma node_get_alter f p n :
  node_get p (node_alter f p n) = f <$> node_get p n.
Proof.
  revert n. induction p as [|k p IH]; intros n; [done|].
  destruct n as [d a|a ms]; [done|]. simpl.
  rewrite lookup_alter_eq. destruct (ms !! k) as [c|]; [apply IH|done].
Qed.

(** Below the altered object. *)
Lemma node_get_alter_app f p q n :
  node_get (p ++ q) (node_alter f p n)
  = node_get p n ≫= λ c, node_get q (f c).
Proof.
  rewrite node_get_app, node_get_alter. by destruct (node_get p n).
Qed.

(** Names that part ways at some component do not see each other. *)
Lemma node_get_alter_fork f p k q k' q' n :
  k ≠ k' →
  node_get (p ++ k' :: q') (node_alter f (p ++ k :: q) n)
  = node_get (p ++ k' :: q') n.
Proof.
  intros Hne. revert n. induction p as [|j p IH]; intros n.
  - destruct n as [d a|a ms]; [done|]. simpl.
    by rewrite lookup_alter_ne.
  - destruct n as [d a|a ms]; [done|]. simpl.
    rewrite lookup_alter_eq. destruct (ms !! j) as [c|]; [apply IH|done].
Qed.

Lemma node_alter_compose f g p n :
  node_alter f p (node_alter g p n) = node_alter (f ∘ g) p n.
Proof.
  revert n. induction p as [|k p IH]; intros n; [done|].
  destruct n as [d a|a ms]; [done|]. simpl. f_equal.
  rewrite alter_alter_eq. apply alter_ext. intros c _. apply IH.
Qed.

Lemma node_alter_ext f g p n :
  (∀ c, node_get p n = Some c → f c = g c) →
  node_alter f p n = node_alter g p n.
Proof.
  revert n. induction p as [|k p IH]; intros n Hfg; [by apply Hfg|].
  destruct n as [d a|a ms]; [done|]. simpl. f_equal.
  apply alter_ext. intros c Hc. apply IH. intros c' Hc'. apply Hfg.
  simpl. by rewrite Hc.
Qed.

Lemma node_alter_id f p n :
  (∀ c, node_get p n = Some c → f c = c) → node_alter f p n = n.
Proof.
  revert n. induction p as [|k p IH]; intros n Hf; [by apply Hf|].
  destruct n as [d a|a ms]; [done|]. simpl. f_equal.
  apply alter_id. intros c Hc. apply IH. intros c' Hc'. apply Hf.
  simpl. by rewrite Hc.
Qed.

(** A name resolves through a group only. *)
Lemma node_get_cons_Some k q n c :
  node_get (k :: q) n = Some c →
  ∃ a ms m, n = Group a ms ∧ ms !! k = Some m ∧ node_get q m = Some c.
Proof.
  destruct n as [d a|a ms]; [done|]. simpl.
  destruct (ms !! k) as [m|] eqn:Hk; [|done]. intros Hq. by exists a, ms, m.
Qed.

End Paths.

(** ** The monad and the h5py operations *)

Section Operations.

Context {A B : Type}.
Implicit Types (s : state) (h p : path).

Lemma bind_returns (m : M A) (k : A → M B) s a s1 :
  m s = Returns a s1 → bind m k s = k a s1.
Proof. unfold bind. by intros ->. Qed.

Lemma bind_raises (m : M A) (k : A → M B) s e s1 :
  m s = Raises e s1 → bind m k s = Raises e s1.
Proof. unfold bind. by intros ->. Qed.

Lemma lift_inv (r : exn + A) s a s' :
  lift r s = Returns a s' → r = inr a ∧ s' = s.
Proof. destruct r as [e|x]; [done|]. by intros [= <- <-]. Qed.

Lemma bind_Returns_inv (m : M A) (k : A → M B) s b s' :
  bind m k s = Returns b s' →
  ∃ a s1, m s = Returns a s1 ∧ k a s1 = Returns b s'.
Proof. unfold bind. destruct (m s) as [a s1|e s1]; [eauto|done]. Qed.

End Operations.

Section Primitives.

Implicit Types (s : state) (h p q : path) (k : string) (v : value).

(** A handle whose name continues resolves to a group. *)
Lemma node_get_app_cons_group h k q n c :
  node_get (h ++ k :: q) n = Some c →
  ∃ a ms, node_get h n = Some (Group a ms) ∧ node_get (k :: q) (Group a ms) = Some c.
Proof.
  rewrite node_get_app. destruct (node_get h n) as [g|]; [|done]. simpl.
  intros Hq. destruct (node_get_cons_Some _ _ _ _ Hq) as (a & ms & m & -> & _ & _).
  eauto.
Qed.

Lemma getitem_Some h k q s c :
  node_get (h ++ k :: q) (root s) = Some c →
  getitem h (k :: q) s = Returns (h ++ k :: q) s.
Proof.
  intros H. destruct (node_get_app_cons_group _ _ _ _ _ H) as (a & ms & Hh & Hq).
  unfold getitem. by rewrite Hh, Hq.
Qed.

Lemma getitem_None h k q s a ms :
  node_get h (root s) = Some (Group a ms) →
  node_get (k :: q) (Group a ms) = None →
  getitem h (k :: q) s = Raises KeyError s.
Proof. intros Hh Hq. unfold getitem. by rewrite Hh, Hq. Qed.

Lemma getitem_inv h q s p s' :
  getitem h q s = Returns p s' →
  s' = s ∧ p = h ++ q ∧
  ∃ a ms c, node_get h (root s) = Some (Group a ms) ∧
            node_get (h ++ q) (root s) = Some c.
Proof.
  unfold getitem. destruct (node_get h (root s)) as [[d a|a ms]|] eqn:Hh; try done.
  destruct (node_get q (Group a ms)) as [c|] eqn:Hq; [|done].
  intros [= <- <-]. split_and!; [done..|]. exists a, ms, c. split; [done|].
  by rewrite node_get_app, Hh.
Qed.

Lemma read_Dataset ver p s d a :
  node_get p (root s) = Some (Dataset d a) →
  read ver p s = Returns (dataset_read ver d) s.
Proof. intros H. unfold read. by rewrite H. Qed.

Lemma read_inv ver p s v s' :
  read ver p s = Returns v s' →
  s' = s ∧ ∃ d a, node_get p (root s) = Some (Dataset d a) ∧ v = dataset_read ver d.
Proof.
  unfold read. destruct (node_get p (root s)) as [[d a|a ms]|]; try done.
  intros [= <- <-]. eauto.
Qed.

Lemma attrs_get_Some p k s n v :
  node_get p (root s) = Some n → node_attrs n !! k = Some v →
  attrs_get p k s = Returns v s.
Proof. intros Hp Hk. unfold attrs_get. by rewrite Hp, Hk. Qed.

Lemma attrs_get_inv p k s v s' :
  attrs_get p k s = Returns v s' →
  s' = s ∧ ∃ n, node_get p (root s) = Some n ∧ node_attrs n !! k = Some v.
Proof.
  unfold attrs_get. destruct (node_get p (root s)) as [n|]; [|done].
  destruct (node_attrs n !! k) as [w|] eqn:Hk; [|done].
  intros [= <- <-]. eauto.
Qed.

Lemma attrs_items_inv p s d s' :
  attrs_items p s = Returns d s' →
  s' = s ∧ ∃ n, node_get p (root s) = Some n ∧ d = node_attrs n.
Proof.
  unfold attrs_items. destruct (node_get p (root s)) as [n|]; [|done].
  intros [= <- <-]. eauto.
Qed.

Lemma attrs_set_Some p k v s n :
  node_get p (root s) = Some n →
  attrs_set p k v s = Returns tt (with_root (node_alter (set_attr k v) p) s).
Proof. intros Hp. unfold attrs_set. by rewrite Hp. Qed.

Lemma attrs_set_inv p k v s s' :
  attrs_set p k v s = Returns tt s' →
  s' = with_root (node_alter (set_attr k v) p) s ∧ is_Some (node_get p (root s)).
Proof.
  unfold attrs_set. destruct (node_get p (root s)) as [n|]; [|done].
  intros [= <-]. eauto.
Qed.

Lemma delitem_Some h dir k s c :
  node_get (h ++ dir ++ [k]) (root s) = Some c →
  delitem h (dir ++ [k]) s
  = Returns tt (with_root (node_alter (unlink k) (h ++ dir)) s).
Proof.
  intros H.
  assert (Hsplit : split_last (dir ++ [k]) = Some (dir, k)).
  { clear. induction dir as [|j dir IH]; [done|]. simpl.
    rewrite IH. by destruct (dir ++ [k]) eqn:E; [destruct dir|]. }
  assert (∃ a ms, node_get h (root s) = Some (Group a ms) ∧
                  node_get (dir ++ [k]) (Group a ms) = Some c) as (a & ms & Hh & Hq).
  { destruct dir as [|j dir];
      [apply (node_get_app_cons_group h k [])
      |apply (node_get_app_cons_group h j (dir ++ [k]))]; exact H. }
  unfold delitem. by rewrite Hh, Hq, Hsplit.
Qed.

Lemma create_dataset_None h k v s a ms :
  node_get h (root s) = Some (Group a ms) → ms !! k = None →
  create_dataset h k v s
  = Returns (h ++ [k]) (with_root (node_alter (link k (Dataset v ∅)) h) s).
Proof. intros Hh Hk. unfold create_dataset. by rewrite Hh, Hk. Qed.

Lemma take_eq b s : take b s = Returns tt (State (root s) (taken s ++ [b])).
Proof. done. Qed.

End Primitives.

(** ** [check_definition] *)

Section Definition_.

Implicit Types (s : state) (h : path).

Lemma check_definition_correct ver h s d a :
  node_get (h ++ ["entry"; "definition"]) (root s) = Some (Dataset d a) →
  py_ne (dataset_read ver d) NXmx = true →
  check_definition ver h s
  = Returns tt (State (node_alter rewrite_definition (h ++ ["entry"]) (root s))
                      (taken s ++ [FixDefinition])).
Proof.
  intros Hd Hne. pose proof Hd as Hd'.
  apply (node_get_app_cons_group h "entry" ["definition"]) in Hd'
    as (ga & gms & Hh & Hed).
  apply node_get_cons_Some in Hed as (? & ? & e & [= <- <-] & He & Hdef).
  apply node_get_cons_Some in Hdef as (ea & ems & m & -> & Hm & [= ->]).
  unfold check_definition.
  erewrite bind_returns by (eapply (getitem_Some h "entry" ["definition"]), Hd).
  erewrite bind_returns by (eapply read_Dataset, Hd).
  rewrite Hne. unfold when.
  erewrite bind_returns by (eapply (delitem_Some h ["entry"] "definition"), Hd).
  assert (Hentry : node_get (h ++ ["entry"])
                     (node_alter (unlink "definition") (h ++ ["entry"]) (root s))
                   = Some (Group ea (delete "definition" ems))).
  { rewrite node_get_alter, node_get_app, Hh. simpl. by rewrite He. }
  erewrite bind_returns by (eapply (getitem_Some h "entry" []), Hentry).
  erewrite bind_returns
    by (eapply create_dataset_None; [exact Hentry|apply lookup_delete_eq]).
  rewrite take_eq. unfold with_root. simpl. do 2 f_equal.
  apply node_alter_compose.
Qed.

Lemma check_definition_unchanged ver h s d a :
  node_get (h ++ ["entry"; "definition"]) (root s) = Some (Dataset d a) →
  py_ne (dataset_read ver d) NXmx = false →
  check_definition ver h s = Returns tt s.
Proof.
  intros Hd Hne. unfold check_definition.
  erewrite bind_returns by (eapply (getitem_Some h "entry" ["definition"]), Hd).
  erewrite bind_returns by (eapply read_Dataset, Hd).
  by rewrite Hne.
Qed.

Lemma node_get_rewrite_definition h r a ms :
  node_get (h ++ ["entry"]) r = Some (Group a ms) →
  node_get (h ++ ["entry"; "definition"])
    (node_alter rewrite_definition (h ++ ["entry"]) r)
  = Some (Dataset NXmx ∅).
Proof.
  intros He.
  change (h ++ ["entry"; "definition"]) with (h ++ ["entry"] ++ ["definition"]).
  rewrite (assoc_L (++)), node_get_alter_app, He. simpl.
  by rewrite lookup_insert_eq.
Qed.

(** What [check_definition] does, in terms of its own test
    [definition != "NXmx"] on the value h5py hands back.  A file whose
    [entry/definition] dataset does not read as the string "NXmx" has that
    dataset deleted and created again with the value "NXmx" and no attributes
    (nothing else in the file changes), and reading [entry/definition]
    afterwards yields the text NXmx; a file whose definition reads as the
    string "NXmx" is left as it is. *)
Lemma check_definition_spec ver h s d a :
  node_get (h ++ ["entry"; "definition"]) (root s) = Some (Dataset d a) →
  if py_ne (dataset_read ver d) NXmx
  then ∃ s' v,
      check_definition ver h s = Returns tt s' ∧
      root s' = node_alter rewrite_definition (h ++ ["entry"]) (root s) ∧
      node_get (h ++ ["entry"; "definition"]) (root s') = Some (Dataset NXmx ∅) ∧
      read ver (h ++ ["entry"; "definition"]) s' = Returns v s' ∧
      value_text v = Some "NXmx"
  else check_definition ver h s = Returns tt s.
Proof.
  intros Hd. destruct (py_ne (dataset_read ver d) NXmx) eqn:Hne;
    [|by eapply check_definition_unchanged].
  assert (∃ ea ems, node_get (h ++ ["entry"]) (root s) = Some (Group ea ems))
    as (ea & ems & He).
  { change (h ++ ["entry"; "definition"])
      with (h ++ ["entry"] ++ ["definition"]) in Hd.
    rewrite (assoc_L (++)) in Hd.
    apply node_get_app_cons_group in Hd as (ea & ems & He & _). eauto. }
  pose proof (node_get_rewrite_definition h (root s) ea ems He) as Hnew.
  eexists _, (dataset_read ver NXmx).
  split; [by eapply check_definition_correct|].
  split_and!; [done|exact Hnew| |by destruct ver].
  exact (read_Dataset ver _ (State _ _) NXmx ∅ Hnew).
Qed.

(** At the top of a file whose definition is the string "NXclassified". *)
Lemma check_definition_NXclassified :
  ∃ s' v,
    check_definition H5py2 []
      (State (Group ∅ {[ "entry" := Group ∅ {[ "definition" := Dataset (VStr "NXclassified") ∅ ]} ]}) [])
    = Returns tt s' ∧
    root s' = node_alter rewrite_definition ["entry"]
                (Group ∅ {[ "entry" := Group ∅ {[ "definition" := Dataset (VStr "NXclassified") ∅ ]} ]}) ∧
    node_get ["entry"; "definition"] (root s') = Some (Dataset NXmx ∅) ∧
    read H5py2 ["entry"; "definition"] s' = Returns v s' ∧
    value_text v = Some "NXmx".
Proof.
  apply (check_definition_spec H5py2 []
           (State (Group ∅ {[ "entry" := Group ∅ {[ "definition" := Dataset (VStr "NXclassified") ∅ ]} ]}) [])
           (VStr "NXclassified") ∅).
  reflexivity.
Defined.

End Definition_.

(** ** [check_sample_depends_on] *)

Section Sample.

Implicit Types (s : state) (h : path).

Lemma try_returns {A} (body handler : M A) s a s1 :
  body s = Returns a s1 → try_except_KeyError body handler s = Returns a s1.
Proof. unfold try_except_KeyError. by intros ->. Qed.

Lemma try_KeyError {A} (body handler : M A) s s1 :
  body s = Raises KeyError s1 → try_except_KeyError body handler s = handler s1.
Proof. unfold try_except_KeyError. by intros ->. Qed.

Lemma try_raises {A} (body handler : M A) s e s1 :
  body s = Raises e s1 → e ≠ KeyError →
  try_except_KeyError body handler s = Raises e s1.
Proof. unfold try_except_KeyError. intros -> ?. by destruct e. Qed.

Lemma py_ne_bytes_false v t : py_ne v (VBytes t) = false → v = VBytes t.
Proof.
  destruct v as [b| | |]; try done. simpl. intros H%negb_false_iff.
  by apply bool_decide_eq_true in H as ->.
Qed.

Lemma check_sample_depends_on_absent ver h s ga ms :
  node_get h (root s) = Some (Group ga ms) → ms !! "depends_on" = None →
  check_sample_depends_on ver h s
  = Returns tt (State (node_alter create_depends_on h (root s))
                      (taken s ++ [CreateSampleDependsOn])).
Proof.
  intros Hh Hk. unfold check_sample_depends_on.
  erewrite try_KeyError; cycle 1.
  { eapply bind_raises, getitem_None; [exact Hh|]. simpl. by rewrite Hk. }
  rewrite (bind_returns _ _ _ _ _ (take_eq _ _)).
  erewrite bind_returns by (eapply create_dataset_None; [exact Hh|exact Hk]).
  done.
Qed.

Lemma check_sample_depends_on_present ver h s ga ms d a :
  node_get h (root s) = Some (Group ga ms) →
  ms !! "depends_on" = Some (Dataset d a) →
  check_sample_depends_on ver h s
  = if py_ne (dataset_read ver d) (VBytes phi_target)
    then Returns tt (State (node_alter recreate_depends_on h (root s))
                           (taken s ++ [FixSampleDependsOn]))
    else Returns tt s.
Proof.
  intros Hh Hk.
  assert (Hds : node_get (h ++ ["depends_on"]) (root s) = Some (Dataset d a)).
  { rewrite node_get_app, Hh. simpl. by rewrite Hk. }
  unfold check_sample_depends_on.
  destruct (py_ne (dataset_read ver d) (VBytes phi_target)) eqn:Hne;
    apply try_returns;
    erewrite bind_returns by (eapply (getitem_Some h "depends_on" []), Hds);
    erewrite bind_returns by (eapply read_Dataset, Hds);
    rewrite Hne; [|done].
  unfold when. rewrite (bind_returns _ _ _ _ _ (take_eq _ _)).
  erewrite bind_returns by (eapply (delitem_Some h [] "depends_on"), Hds).
  rewrite app_nil_r.
  erewrite bind_returns; cycle 1.
  { eapply create_dataset_None.
    - simpl. rewrite node_get_alter, Hh. reflexivity.
    - apply lookup_delete_eq. }
  unfold ret, with_root. simpl. do 2 f_equal. apply node_alter_compose.
Qed.

Lemma check_sample_depends_on_group ver h s ga ms ga' ms' :
  node_get h (root s) = Some (Group ga ms) →
  ms !! "depends_on" = Some (Group ga' ms') →
  check_sample_depends_on ver h s = Raises TypeError s.
Proof.
  intros Hh Hk.
  assert (Hds : node_get (h ++ ["depends_on"]) (root s) = Some (Group ga' ms')).
  { rewrite node_get_app, Hh. simpl. by rewrite Hk. }
  unfold check_sample_depends_on. eapply try_raises; [|done].
  erewrite bind_returns by (eapply (getitem_Some h "depends_on" []), Hds).
  apply bind_raises. unfold read. by rewrite Hds.
Qed.

(** C7. On a sample group, [check_sample_depends_on] creates the
    [depends_on] dataset, without raising, when the group has none; deletes
    it and creates it again when it reads as anything but
    [b"/entry/sample/transformations/phi"]; and leaves the file untouched
    when it reads as that.  Whenever the function returns, the group holds a
    [depends_on] dataset that reads as that value.  (The one way not to
    return is a [depends_on] member that is a group.) *)
Theorem check_sample_depends_on_spec ver h s ga ms :
  node_get h (root s) = Some (Group ga ms) →
  match ms !! "depends_on" with
  | None =>
      check_sample_depends_on ver h s
      = Returns tt (State (node_alter create_depends_on h (root s))
                          (taken s ++ [CreateSampleDependsOn]))
  | Some (Dataset d a) =>
      if py_ne (dataset_read ver d) (VBytes phi_target)
      then check_sample_depends_on ver h s
           = Returns tt (State (node_alter recreate_depends_on h (root s))
                               (taken s ++ [FixSampleDependsOn]))
      else check_sample_depends_on ver h s = Returns tt s
  | Some (Group _ _) => check_sample_depends_on ver h s = Raises TypeError s
  end ∧
  ∀ s', check_sample_depends_on ver h s = Returns tt s' →
        ∃ d a, node_get (h ++ ["depends_on"]) (root s') = Some (Dataset d a) ∧
               dataset_read ver d = VBytes phi_target.
Proof.
  intros Hh.
  assert (Hnew : ∀ f : node → node,
             node_get ["depends_on"] (f (Group ga ms)) = Some phi_dataset →
             node_get (h ++ ["depends_on"]) (node_alter f h (root s))
             = Some phi_dataset).
  { intros f Hf. rewrite node_get_alter_app, Hh. apply Hf. }
  destruct (ms !! "depends_on") as [[d a|ga' ms']|] eqn:Hk.
  - rewrite (check_sample_depends_on_present ver h s ga ms d a Hh Hk).
    destruct (py_ne (dataset_read ver d) (VBytes phi_target)) eqn:Hne;
      (split; [done|]); intros s' [= <-].
    + exists (VBytes phi_target), ∅. split; [|by destruct ver].
      apply Hnew. simpl. by rewrite lookup_insert_eq.
    + exists d, a. split; [|by apply py_ne_bytes_false].
      rewrite node_get_app, Hh. simpl. by rewrite Hk.
  - rewrite (check_sample_depends_on_group ver h s ga ms ga' ms' Hh Hk).
    by split.
  - rewrite (check_sample_depends_on_absent ver h s ga ms Hh Hk).
    split; [done|]. intros s' [= <-].
    exists (VBytes phi_target), ∅. split; [|by destruct ver].
    apply Hnew. simpl. by rewrite lookup_insert_eq.
Qed.

End Sample.

(** ** [check_I19_dependency_tree] *)

Section DependencyTree.

Implicit Types (s : state) (h : path) (axis target : string).

Lemma node_attrs_set_attr k v n : node_attrs (set_attr k v n) = <[k := v]> (node_attrs n).
Proof. by destruct n. Qed.

Lemma set_attr_id k v n : node_attrs n !! k = Some v → set_attr k v n = n.
Proof. intros H. destruct n; unfold set_attr; simpl in *; by rewrite insert_id. Qed.

(** The shape shared by the dependency checks: read an attribute of a
    member, and overwrite it when it differs from the wanted byte string.
    Either the attribute is found right or it is overwritten; in both cases
    the file afterwards is the file before with the attribute set. *)
Lemma fix_attr_inv (b : branch) g name k t s s' :
  (let* ax := getitem g [name] in
   let* dep := attrs_get ax k in
   when (py_ne dep (VBytes t))
     (take b >>
      let* ax := getitem g [name] in
      attrs_set ax k (VBytes t))) s = Returns tt s' →
  (∃ n v, node_get (g ++ [name]) (root s) = Some n ∧ node_attrs n !! k = Some v) ∧
  root s' = node_alter (set_attr k (VBytes t)) (g ++ [name]) (root s).
Proof.
  intros H.
  apply bind_Returns_inv in H as (ax & s1 & Hget & H).
  apply getitem_inv in Hget as (-> & -> & _).
  apply bind_Returns_inv in H as (dep & s1 & Hdep & H).
  apply attrs_get_inv in Hdep as (-> & n & Hn & Hk).
  split; [eauto|].
  destruct (py_ne dep (VBytes t)) eqn:Hne; simpl in H.
  - apply bind_Returns_inv in H as ([] & s1 & [= <-] & H).
    apply bind_Returns_inv in H as (ax & s2 & Hget & H).
    apply getitem_inv in Hget as (-> & -> & _).
    by apply attrs_set_inv in H as [-> _].
  - injection H as <-. apply py_ne_bytes_false in Hne as ->.
    symmetry. apply node_alter_id. intros c' Hc'.
    rewrite Hn in Hc'. injection Hc' as <-. by apply set_attr_id.
Qed.

Lemma fix_attr_spec (b : branch) g name k t s n v :
  node_get (g ++ [name]) (root s) = Some n →
  node_attrs n !! k = Some v →
  (let* ax := getitem g [name] in
   let* dep := attrs_get ax k in
   when (py_ne dep (VBytes t))
     (take b >>
      let* ax := getitem g [name] in
      attrs_set ax k (VBytes t))) s
  = Returns tt
      (State (node_alter (set_attr k (VBytes t)) (g ++ [name]) (root s))
             (taken s ++ (if py_ne v (VBytes t) then [b] else []))).
Proof.
  intros Hn Hk.
  erewrite bind_returns by (eapply (getitem_Some g name []), Hn).
  erewrite bind_returns by (eapply attrs_get_Some; [exact Hn|exact Hk]).
  destruct (py_ne v (VBytes t)) eqn:Hne; simpl.
  - rewrite (bind_returns _ _ _ _ _ (take_eq _ _)).
    erewrite bind_returns by (eapply (getitem_Some g name []), Hn).
    by erewrite attrs_set_Some by exact Hn.
  - apply py_ne_bytes_false in Hne as ->. rewrite app_nil_r.
    rewrite node_alter_id; [by destruct s|].
    intros c Hc. rewrite Hn in Hc. injection Hc as <-. by apply set_attr_id.
Qed.

Lemma fix_axis_depends_on_inv h axis target s s' :
  fix_axis_depends_on h axis target s = Returns tt s' →
  is_Some (node_get (h ++ [axis]) (root s)) ∧
  root s' = node_alter (set_attr "depends_on" (VBytes target)) (h ++ [axis]) (root s).
Proof.
  intros H. apply fix_attr_inv in H as [(n & v & Hn & _) Hroot]. eauto.
Qed.

Lemma has_attr_set_attr r p k v :
  is_Some (node_get p r) → has_attr (node_alter (set_attr k v) p r) p k v.
Proof.
  intros [n Hn]. exists (set_attr k v n). rewrite node_get_alter, Hn.
  split; [done|]. by rewrite node_attrs_set_attr, lookup_insert_eq.
Qed.

(** A run of steps over distinct axes leaves each of them with its target,
    and does not touch the other members of the group. *)
Lemma for_each_fix_axis h steps s s' :
  NoDup steps.*1 →
  for_each steps (λ at_, fix_axis_depends_on h at_.1 at_.2) s = Returns tt s' →
  (∀ axis target, (axis, target) ∈ steps →
     has_attr (root s') (h ++ [axis]) "depends_on" (VBytes target)) ∧
  (∀ axis q, axis ∉ steps.*1 →
     node_get (h ++ axis :: q) (root s') = node_get (h ++ axis :: q) (root s)).
Proof.
  revert s. induction steps as [|[a t] steps IH]; intros s Hnd H.
  - injection H as <-. split; [|done]. intros ?? Hin. by apply elem_of_nil in Hin.
  - simpl in *. apply NoDup_cons in Hnd as [Ha Hnd].
    apply bind_Returns_inv in H as ([] & s1 & Hstep & H).
    apply fix_axis_depends_on_inv in Hstep as [Hsome Hroot].
    destruct (IH s1 Hnd H) as [IHin IHout]. split.
    + intros axis target [[= -> ->]|Hin]%elem_of_cons; [|by apply IHin].
      unfold has_attr. rewrite (IHout a [] Ha), Hroot.
      by apply has_attr_set_attr.
    + intros axis q [Hne Hout]%not_elem_of_cons.
      rewrite (IHout axis q Hout), Hroot.
      by apply (node_get_alter_fork _ h a [] axis q).
Qed.

Lemma check_I19_dependency_tree_steps h s :
  check_I19_dependency_tree h s
  = for_each I19_steps (λ at_, fix_axis_depends_on h at_.1 at_.2) s.
Proof.
  unfold check_I19_dependency_tree, I19_steps. simpl. unfold bind, ret.
  repeat match goal with
         | |- context [match ?m ?t with _ => _ end] =>
             destruct (m t) as [[] ?|? ?]; try reflexivity
         end.
Qed.

(** When the function returns, each axis carries its canonical target. *)
Lemma check_I19_dependency_tree_chain h s s' axis target :
  check_I19_dependency_tree h s = Returns tt s' →
  (axis, target) ∈ I19_chain →
  has_attr (root s') (h ++ [axis]) "depends_on" (VBytes target).
Proof.
  rewrite check_I19_dependency_tree_steps. intros H Hin.
  apply for_each_fix_axis in H as [H _].
  - apply H. apply list_elem_of_In. apply list_elem_of_In in Hin.
    unfold I19_chain, I19_steps in *. simpl in *. tauto.
  - compute_done.
Qed.

End DependencyTree.

Section DependencyTreeReturns.

Implicit Types (s : state) (h : path) (axis target : string).

Lemma fix_axis_depends_on_returns h axis target s n :
  node_get (h ++ [axis]) (root s) = Some n →
  is_Some (node_attrs n !! "depends_on") →
  ∃ s', fix_axis_depends_on h axis target s = Returns tt s'.
Proof.
  intros Hn [dep Hdep]. unfold fix_axis_depends_on.
  erewrite bind_returns by (eapply (getitem_Some h axis []), Hn).
  erewrite bind_returns by (eapply attrs_get_Some; [exact Hn|exact Hdep]).
  destruct (py_ne dep (VBytes target)); simpl; [|by eexists].
  rewrite (bind_returns _ _ _ _ _ (take_eq _ _)).
  erewrite bind_returns by (eapply (getitem_Some h axis []), Hn).
  erewrite attrs_set_Some by exact Hn. by eexists.
Qed.

Lemma for_each_fix_axis_returns h steps s :
  (∀ axis, axis ∈ steps.*1 →
     ∃ n, node_get (h ++ [axis]) (root s) = Some n ∧
          is_Some (node_attrs n !! "depends_on")) →
  ∃ s', for_each steps (λ at_, fix_axis_depends_on h at_.1 at_.2) s = Returns tt s'.
Proof.
  revert s. induction steps as [|[a t] steps IH]; intros s Hall; [by eexists|].
  simpl in *. destruct (Hall a) as (n & Hn & Hdep); [apply list_elem_of_here|].
  destruct (fix_axis_depends_on_returns h a t s n Hn Hdep) as [s1 Hstep].
  rewrite (bind_returns _ _ _ _ _ Hstep).
  apply fix_axis_depends_on_inv in Hstep as [_ Hroot].
  apply IH. intros axis Hin. rewrite Hroot.
  destruct (Hall axis) as (m & Hm & Hmdep); [by apply list_elem_of_further|].
  destruct (decide (a = axis)) as [->|Hne].
  - exists (set_attr "depends_on" (VBytes t) m). rewrite node_get_alter, Hm.
    split; [done|]. rewrite node_attrs_set_attr, lookup_insert_eq. eauto.
  - exists m. split; [|done]. rewrite <- Hm.
    by apply (node_get_alter_fork _ h a [] axis []).
Qed.

(** The function does return on a group that holds the six axes, each with
    a [depends_on] attribute. *)
Lemma check_I19_dependency_tree_returns h s :
  (∀ axis, axis ∈ I19_chain.*1 →
     ∃ n, node_get (h ++ [axis]) (root s) = Some n ∧
          is_Some (node_attrs n !! "depends_on")) →
  ∃ s', check_I19_dependency_tree h s = Returns tt s'.
Proof.
  intros Hall. rewrite check_I19_dependency_tree_steps.
  apply for_each_fix_axis_returns. intros axis Hin. apply Hall.
  apply list_elem_of_In. apply list_elem_of_In in Hin.
  unfold I19_chain, I19_steps in *. simpl in *. tauto.
Qed.

(** C6. On a group that holds the six axes, each with a [depends_on]
    attribute that is a string, [check_I19_dependency_tree] returns, and in
    the file it returns with the [depends_on] attributes of the six axes
    realise the canonical chain: [sam_x] on [sam_y], [sam_y] on [sam_z],
    [sam_z] on [phi], [phi] on [kappa], [kappa] on [omega], and [omega] on
    ".". *)
Theorem check_I19_dependency_tree_canonical h s :
  (∀ axis, axis ∈ I19_chain.*1 →
     ∃ n v, node_get (h ++ [axis]) (root s) = Some n ∧
            node_attrs n !! "depends_on" = Some v ∧ is_text v) →
  ∃ s', check_I19_dependency_tree h s = Returns tt s' ∧
        ∀ axis target, (axis, target) ∈ I19_chain →
          has_attr (root s') (h ++ [axis]) "depends_on" (VBytes target).
Proof.
  intros Hall.
  destruct (check_I19_dependency_tree_returns h s) as [s' Hs'].
  { intros axis Hin. destruct (Hall axis Hin) as (n & v & Hn & Hv & _). eauto. }
  exists s'. split; [exact Hs'|]. intros axis target Hin.
  by eapply check_I19_dependency_tree_chain.
Qed.

End DependencyTreeReturns.

(** ** [check_detector_transformations] *)

Section Detector.

Implicit Types (s : state) (h p : path) (a : gmap string value).

Lemma find_two_theta_spec h s ga ms :
  node_get h (root s) = Some (Group ga ms) →
  find_two_theta h s
  = match ms !! "two_theta", ms !! "twotheta" with
    | Some _, _ => Returns ("two_theta", h ++ ["two_theta"]) s
    | None, Some _ => Returns ("twotheta", h ++ ["twotheta"]) s
    | None, None => Raises KeyError s
    end.
Proof.
  intros Hh. unfold find_two_theta, try_except_KeyError, bind, getitem, ret.
  rewrite Hh. simpl.
  destruct (ms !! "two_theta"); [done|]. simpl. rewrite Hh.
  by destruct (ms !! "twotheta").
Qed.

Lemma find_two_theta_inv h s ds tth s' :
  find_two_theta h s = Returns (ds, tth) s' →
  s' = s ∧ tth = h ++ [ds] ∧ ds ≠ "detector_z" ∧
  is_Some (node_get (h ++ [ds]) (root s)).
Proof.
  unfold find_two_theta, try_except_KeyError. intros H.
  destruct (bind (getitem h ["two_theta"]) _ s) as [[ds' g] s1|e s1] eqn:Hfirst.
  - injection H as -> -> ->.
    apply bind_Returns_inv in Hfirst as (g & s1 & Hget & [= <- <- <-]).
    apply getitem_inv in Hget as (-> & -> & ? & ? & c & ? & Hc). naive_solver.
  - destruct e; try done.
    apply bind_Returns_inv in H as (g & s2 & Hget & [= <- <- <-]).
    apply getitem_inv in Hget as (-> & -> & ? & ? & c & ? & Hc).
    unfold bind, getitem in Hfirst.
    destruct (node_get h (root s)) as [[|ga ms]|]; try done.
    destruct (node_get ["two_theta"] (Group ga ms)); [done|].
    injection Hfirst as <-. naive_solver.
Qed.

Lemma for_each_attrs_set p (l : list (string * value)) s :
  is_Some (node_get p (root s)) →
  for_each l (λ kv, attrs_set p kv.1 kv.2) s
  = Returns tt
      (with_root (node_alter (λ n, foldl (λ n kv, set_attr kv.1 kv.2 n) n l) p) s).
Proof.
  revert s. induction l as [|[k v] l IH]; intros s [n Hn]; simpl.
  - unfold ret, with_root. rewrite node_alter_id by done. by destruct s.
  - rewrite (bind_returns _ _ _ _ _ (attrs_set_Some p k v s n Hn)).
    rewrite IH by (simpl; rewrite node_get_alter, Hn; eauto).
    unfold with_root. simpl. by rewrite node_alter_compose.
Qed.

Lemma foldl_insert_map_to_list a :
  foldl (λ m (kv : string * value), <[kv.1 := kv.2]> m) ∅ (map_to_list a) = a.
Proof.
  assert (Hrev : ∀ l : list (string * value),
             foldl (λ m kv, <[kv.1 := kv.2]> m) (∅ : gmap string value) l
             = list_to_map (reverse l)).
  { induction l as [|[k v] l IH] using rev_ind; [done|].
    by rewrite foldl_snoc, reverse_snoc, IH. }
  rewrite Hrev. rewrite <- (list_to_map_to_list a) at 2.
  symmetry. apply list_to_map_proper; [apply NoDup_fst_map_to_list|].
  symmetry. apply reverse_Permutation.
Qed.

Lemma foldl_set_attr_Dataset v (l : list (string * value)) m :
  foldl (λ n kv, set_attr kv.1 kv.2 n) (Dataset v m) l
  = Dataset v (foldl (λ m kv, <[kv.1 := kv.2]> m) m l).
Proof. revert m. induction l as [|[k x] l IH]; intros m; [done|apply IH]. Qed.

(** Lines 41-50 on a two-theta dataset whose value has a truth value [c]
    under [!= 0]: the dataset is replaced by one with the value [[0.0]] and
    the same attributes when [c] holds, and nothing happens otherwise. *)
Lemma fix_two_theta_value_spec ver ds tth s d a c :
  node_get (tth ++ [ds]) (root s) = Some (Dataset d a) →
  ne_zero_truth (dataset_read ver d) = inr c →
  fix_two_theta_value ver ds tth s
  = Returns tt
      (State (if c then node_alter (recreated a) (tth ++ [ds]) (root s) else root s)
             (taken s ++ (if c then [FixTwoThetaValue] else []))).
Proof.
  intros Hds Hc. unfold fix_two_theta_value.
  erewrite bind_returns by (eapply (getitem_Some tth ds []), Hds).
  erewrite bind_returns by (eapply read_Dataset, Hds).
  rewrite Hc. unfold lift. rewrite (bind_returns _ _ _ c s eq_refl).
  destruct c; simpl; [|rewrite app_nil_r; by destruct s].
  pose proof Hds as Hds'.
  apply (node_get_app_cons_group tth ds []) in Hds' as (ga & ms & Htth & Hm).
  simpl in Hm. destruct (ms !! ds) as [m|] eqn:Hms; [|done]. injection Hm as ->.
  rewrite (bind_returns _ _ _ _ _ (take_eq _ _)).
  erewrite bind_returns by (eapply (getitem_Some tth ds []), Hds).
  erewrite bind_returns by (unfold attrs_items; simpl; by rewrite Hds).
  erewrite bind_returns by (eapply (delitem_Some tth [] ds), Hds).
  rewrite app_nil_r.
  erewrite bind_returns; cycle 1.
  { eapply create_dataset_None.
    - simpl. rewrite node_get_alter, Htth. reflexivity.
    - apply lookup_delete_eq. }
  rewrite for_each_attrs_set; cycle 1.
  { simpl. rewrite node_get_alter_app, node_get_alter, Htth. simpl.
    rewrite lookup_insert_eq. eauto. }
  unfold with_root. simpl. do 2 f_equal.
  rewrite !node_alter_app, !node_alter_compose.
  apply node_alter_ext. intros g Hg. rewrite Htth in Hg. injection Hg as <-.
  simpl. f_equal. rewrite alter_insert_eq, insert_delete_eq.
  rewrite foldl_set_attr_Dataset, foldl_insert_map_to_list.
  apply map_eq. intros j. rewrite lookup_alter, lookup_insert.
  case_decide; [subst; by rewrite Hms|done].
Qed.

Lemma fix_two_theta_value_inv ver ds tth s s' :
  fix_two_theta_value ver ds tth s = Returns tt s' →
  ∃ d a c,
    node_get (tth ++ [ds]) (root s) = Some (Dataset d a) ∧
    ne_zero_truth (dataset_read ver d) = inr c ∧
    root s' = (if c then node_alter (recreated a) (tth ++ [ds]) (root s)
               else root s) ∧
    taken s' = taken s ++ (if c then [FixTwoThetaValue] else []).
Proof.
  intros H. pose proof H as H'. unfold fix_two_theta_value in H'.
  apply bind_Returns_inv in H' as (p & s1 & Hget & H').
  apply getitem_inv in Hget as (-> & -> & _).
  apply bind_Returns_inv in H' as (v & s1 & Hread & H').
  apply read_inv in Hread as (-> & d & a & Hds & ->).
  apply bind_Returns_inv in H' as (c & s1 & Hc & _).
  apply lift_inv in Hc as [Hc _].
  rewrite (fix_two_theta_value_spec ver ds tth s d a c Hds Hc) in H.
  injection H as <-. by exists d, a, c.
Qed.

End Detector.

Section DetectorWhole.

Implicit Types (s : state) (h p : path) (a : gmap string value).

Lemma when_attrs_set_inv (c : bool) (b : branch) p k v s s' :
  when c (take b >> attrs_set p k v) s = Returns tt s' →
  root s' = (if c then node_alter (set_attr k v) p (root s) else root s).
Proof.
  destruct c; simpl; [|by intros [= <-]]. intros H.
  apply bind_Returns_inv in H as ([] & s1 & [= <-] & H).
  by apply attrs_set_inv in H as [-> _].
Qed.

(** Everything [check_detector_transformations] does, read off a run that
    returned: which dataset is the two-theta dataset, what became of it,
    and what became of [det_z]. *)
Lemma check_detector_transformations_inv ver h s s' :
  check_detector_transformations ver h s = Returns tt s' →
  ∃ ds d a c z vec s1,
    find_two_theta h s = Returns (ds, h ++ [ds]) s ∧
    node_get (h ++ [ds; ds]) (root s) = Some (Dataset d a) ∧
    ne_zero_truth (dataset_read ver d) = inr c ∧
    is_Some (a !! "depends_on") ∧
    node_get (h ++ det_z_name) (root s) = Some z ∧
    node_attrs z !! "vector" = Some vec ∧
    fix_two_theta_value ver ds (h ++ [ds]) s = Returns tt s1 ∧
    node_get (h ++ [ds; ds]) (root s1)
    = Some (Dataset (if c then zero_array else d) a) ∧
    node_get (h ++ [ds; ds]) (root s')
    = Some (Dataset (if c then zero_array else d)
              (<["depends_on" := VBytes "."]> a)) ∧
    node_get (h ++ det_z_name) (root s')
    = Some (if vector_ne_any vec then set_attr "vector" det_z_vector z else z).
Proof.
  unfold check_detector_transformations. intros H.
  apply bind_Returns_inv in H as ([ds tth] & s0 & Hfind & H).
  pose proof Hfind as Hfind'.
  apply find_two_theta_inv in Hfind' as (-> & -> & Hds_ne & _).
  apply bind_Returns_inv in H as ([] & s1 & Hval & H).
  pose proof Hval as Hval'.
  apply fix_two_theta_value_inv in Hval' as (d & a & c & Hds & Hc & Hroot1 & _).
  rewrite <- (assoc_L (++)) in Hds, Hroot1. simpl in Hds, Hroot1.
  apply bind_Returns_inv in H as (det_z & s2 & Hget & H).
  apply getitem_inv in Hget as (-> & -> & _).
  apply bind_Returns_inv in H as ([] & s2 & Hvec & H).
  apply bind_Returns_inv in Hvec as (vec & s1' & Hvec & Hvec').
  apply attrs_get_inv in Hvec as (-> & z & Hz & Hzvec).
  apply when_attrs_set_inv in Hvec'. rename Hvec' into Hroot2.
  apply bind_Returns_inv in H as ([] & s3 & Hdep & H).
  apply fix_attr_inv in Hdep as [(n & v & Hn & Hnk) Hroot3].
  rewrite <- (assoc_L (++)) in Hn, Hroot3. simpl in Hn, Hroot3.
  apply bind_Returns_inv in H as (dep & s4 & Hdz & H).
  apply attrs_get_inv in Hdz as (-> & _).
  assert (Hroot' : root s' = root s3).
  { destruct (py_ne dep (VBytes two_theta_target)); simpl in H;
      [|by injection H as <-].
    apply bind_Returns_inv in H as ([] & s4 & [= <-] & H).
    apply bind_Returns_inv in H as (cur & s5 & Hcur & [= <-]).
    by apply attrs_get_inv in Hcur as (-> & _). }
  (* the two-theta dataset and [det_z] after the value fix *)
  assert (Hds1 : node_get (h ++ [ds; ds]) (root s1)
                 = Some (Dataset (if c then zero_array else d) a)).
  { rewrite Hroot1. destruct c; [|done]. by rewrite node_get_alter, Hds. }
  assert (Hz0 : node_get (h ++ det_z_name) (root s1)
                = node_get (h ++ det_z_name) (root s)).
  { rewrite Hroot1. destruct c; [|done].
    by apply (node_get_alter_fork _ h ds [ds] "detector_z" ["det_z"]). }
  (* after the vector fix *)
  assert (Hds2 : node_get (h ++ [ds; ds]) (root s2)
                 = Some (Dataset (if c then zero_array else d) a)).
  { rewrite Hroot2, <- Hds1. destruct (vector_ne_any vec); [|done].
    apply (node_get_alter_fork _ h "detector_z" ["det_z"] ds [ds]). congruence. }
  rewrite Hds2 in Hn. injection Hn as <-. simpl in Hnk.
  exists ds, d, a, c, z, vec, s1.
  split_and!; [done|done|done|by eauto| |done|done|done| | ].
  - by rewrite <- Hz0.
  - by rewrite Hroot', Hroot3, node_get_alter, Hds2.
  - rewrite Hroot', Hroot3. unfold det_z_name.
    rewrite (node_get_alter_fork _ h ds [ds] "detector_z" ["det_z"]) by done.
    rewrite Hroot2. destruct (vector_ne_any vec); [|done].
    by rewrite node_get_alter, Hz.
Qed.

(** The function does return on a group that holds what it reads: a
    two-theta dataset with [depends_on] whose value has a truth value under
    [!= 0], and [detector_z/det_z] with [vector] and [depends_on]. *)
Lemma check_detector_transformations_returns ver h s ds d a c z :
  find_two_theta h s = Returns (ds, h ++ [ds]) s →
  node_get (h ++ [ds; ds]) (root s) = Some (Dataset d a) →
  ne_zero_truth (dataset_read ver d) = inr c →
  is_Some (a !! "depends_on") →
  node_get (h ++ det_z_name) (root s) = Some z →
  is_Some (node_attrs z !! "vector") →
  is_Some (node_attrs z !! "depends_on") →
  ∃ s', check_detector_transformations ver h s = Returns tt s'.
Proof.
  intros Hfind Hds Hc [dep0 Hdep0] Hz [vec Hvec] [dep Hdep].
  pose proof Hfind as Hne. apply find_two_theta_inv in Hne as (_ & _ & Hne & _).
  unfold check_detector_transformations.
  rewrite (bind_returns _ _ _ _ _ Hfind).
  assert (Hds0 : node_get ((h ++ [ds]) ++ [ds]) (root s) = Some (Dataset d a)).
  { by rewrite <- (assoc_L (++)). }
  rewrite (bind_returns _ _ _ _ _
             (fix_two_theta_value_spec ver ds (h ++ [ds]) s d a c Hds0 Hc)).
  rewrite <- (assoc_L (++)). simpl app.
  set (r1 := if c then node_alter (recreated a) (h ++ [ds; ds]) (root s) else root s).
  set (t1 := taken s ++ _).
  assert (Hds1 : node_get (h ++ [ds; ds]) r1
                 = Some (Dataset (if c then zero_array else d) a)).
  { unfold r1. destruct c; [|done]. by rewrite node_get_alter, Hds. }
  assert (Hz1 : node_get (h ++ det_z_name) r1 = Some z).
  { unfold r1. destruct c; [|done]. rewrite <- Hz.
    by apply (node_get_alter_fork _ h ds [ds] "detector_z" ["det_z"]). }
  erewrite bind_returns
    by (eapply (getitem_Some h "detector_z" ["det_z"] (State r1 t1)), Hz1).
  (* the vector *)
  set (r2 := if vector_ne_any vec
             then node_alter (set_attr "vector" det_z_vector) (h ++ det_z_name) r1
             else r1).
  assert (∃ t2, bind (attrs_get (h ++ ["detector_z"; "det_z"]) "vector")
                  (λ vector, when (vector_ne_any vector)
                     (take FixDetZVector >>
                      attrs_set (h ++ ["detector_z"; "det_z"]) "vector" det_z_vector))
                  (State r1 t1)
                = Returns tt (State r2 t2)) as [t2 Hstep2].
  { erewrite bind_returns by (eapply attrs_get_Some; [exact Hz1|exact Hvec]).
    unfold r2. destruct (vector_ne_any vec); simpl; [|by eexists].
    rewrite (bind_returns _ _ _ _ _ (take_eq _ _)).
    erewrite attrs_set_Some by exact Hz1. by eexists. }
  rewrite (bind_returns _ _ _ _ _ Hstep2).
  assert (Hds2 : node_get ((h ++ [ds]) ++ [ds]) r2
                 = Some (Dataset (if c then zero_array else d) a)).
  { rewrite <- (assoc_L (++)). simpl app. unfold r2.
    destruct (vector_ne_any vec); [|done]. rewrite <- Hds1.
    apply (node_get_alter_fork _ h "detector_z" ["det_z"] ds [ds]). congruence. }
  assert (∃ z2, node_get (h ++ det_z_name) r2 = Some z2 ∧
                node_attrs z2 !! "depends_on" = Some dep) as (z2 & Hz2 & Hdep2).
  { unfold r2. destruct (vector_ne_any vec); [|by eauto].
    eexists. rewrite node_get_alter, Hz1. split; [done|].
    by rewrite node_attrs_set_attr, lookup_insert_ne. }
  (* the dependency of two-theta *)
  erewrite bind_returns
    by (eapply (fix_attr_spec FixTwoThetaDependsOn (h ++ [ds]) ds "depends_on" "."
                  (State r2 t2)); [exact Hds2|exact Hdep0]).
  (* the dependency of det_z *)
  assert (Hz3 : node_get (h ++ det_z_name)
                  (node_alter (set_attr "depends_on" (VBytes "."))
                     ((h ++ [ds]) ++ [ds]) r2) = Some z2).
  { rewrite <- (assoc_L (++)). simpl app. rewrite <- Hz2.
    by apply (node_get_alter_fork _ h ds [ds] "detector_z" ["det_z"]). }
  erewrite bind_returns by (eapply attrs_get_Some; [exact Hz3|exact Hdep2]).
  destruct (py_ne dep (VBytes two_theta_target)); simpl; [|by eexists].
  rewrite (bind_returns _ _ _ _ _ (take_eq _ _)).
  erewrite bind_returns by (eapply attrs_get_Some; [exact Hz3|exact Hdep2]).
  by eexists.
Qed.

End DetectorWhole.

Section DetectorProperties.

Implicit Types (s : state) (h p : path) (a : gmap string value).

Lemma float_of_int_0 : float_of_int 0 = S754_zero false.
Proof. reflexivity. Qed.

Lemma float_of_int_m1 :
  float_of_int (-1) = S754_finite true 4503599627370496 (-52).
Proof. reflexivity. Qed.

(** No number is both [== 0] and [== -1]. *)
Lemma scalar_eqb_0_m1 x :
  scalar_eqb x (SInt 0) = true → scalar_eqb x (SInt (-1)) = false.
Proof.
  destruct x as [z|f]; unfold scalar_eqb.
  - intros H%Z.eqb_eq. subst. reflexivity.
  - rewrite float_of_int_0, float_of_int_m1.
    destruct f as [[]|[]| |[] m e]; done.
Qed.

Lemma ne_zero_truth_false ver d :
  d ≠ VArr [] →
  ne_zero_truth (dataset_read ver d) = inr false → value_is_zero d = true.
Proof.
  intros Hne.
  destruct d as [t|t|x|[|x [|y xs]]], ver; simpl; try done;
    unfold scalar_ne; intros [= H%negb_false_iff]; by rewrite ?H.
Qed.

Lemma vector_ne_any_false vec :
  vector_ne_any vec = false → vector_is_canonical vec = true.
Proof.
  assert (Hbroadcast : ∀ x,
             scalar_ne x (SInt 0) || scalar_ne x (SInt 0)
             || scalar_ne x (SInt (-1)) = false → False).
  { unfold scalar_ne. intros x [[H0 _]%orb_false_iff H1]%orb_false_iff.
    apply negb_false_iff in H0, H1.
    apply scalar_eqb_0_m1 in H0. congruence. }
  destruct vec as [t|t|x|[|x [|y [|z [|w xs]]]]]; simpl; try done.
  - intros H. by apply Hbroadcast in H.
  - intros H. by apply Hbroadcast in H.
  - unfold scalar_ne.
    intros [[Hx Hy]%orb_false_iff Hz]%orb_false_iff.
    apply negb_false_iff in Hx, Hy, Hz. by rewrite Hx, Hy, Hz.
Qed.

(** The function never changes the [depends_on] attribute of [det_z]. *)
Lemma det_z_depends_on_unchanged ver h s s' :
  check_detector_transformations ver h s = Returns tt s' →
  ∃ z z',
    node_get (h ++ det_z_name) (root s) = Some z ∧
    node_get (h ++ det_z_name) (root s') = Some z' ∧
    node_attrs z' !! "depends_on" = node_attrs z !! "depends_on".
Proof.
  intros H. apply check_detector_transformations_inv in H
    as (ds & d & a & c & z & vec & s1 & _ & _ & _ & _ & Hz & _ & _ & _ & _ & Hz').
  eexists _, _. split_and!; [exact Hz|exact Hz'|].
  destruct (vector_ne_any vec); [|done].
  by rewrite node_attrs_set_attr, lookup_insert_ne.
Qed.

(** C1, at the misspelt group: the function enters the branch that is meant
    to fix the dependency of [det_z], and returns with the attribute still
    misspelt. *)
Theorem det_z_depends_on_left_misspelt ver :
  ∃ s',
    check_detector_transformations ver [] misspelt_group = Returns tt s' ∧
    taken s' = [FixDetZDependsOn] ∧
    has_attr (root s') det_z_name "depends_on" (VBytes typo_target) ∧
    typo_target ≠ two_theta_target.
Proof.
  exists (final_state (check_detector_transformations ver [] misspelt_group)).
  split_and!; [by destruct ver; vm_compute..| |done].
  eexists. by split; destruct ver; vm_compute.
Qed.

(** C4. When the two-theta value is [!= 0], the correction of lines 41-50
    returns, and it replaces the dataset by one with the value [[0.0]] and
    exactly the attributes of the old dataset, each under its old key with
    its old value: of the dataset, the value alone changes.  When the whole
    call returns, the dataset has these attributes still, [depends_on] being
    then [b"."] (lines 59-61 see to that one): with a [depends_on] that was
    [b"."] already, the dataset the call leaves is the old one with the new
    value. *)
Theorem two_theta_attributes_after_fix ver h s ds d a :
  find_two_theta h s = Returns (ds, h ++ [ds]) s →
  node_get (h ++ [ds; ds]) (root s) = Some (Dataset d a) →
  ne_zero_truth (dataset_read ver d) = inr true →
  fix_two_theta_value ver ds (h ++ [ds]) s
  = Returns tt
      (State (node_alter (recreated a) (h ++ [ds; ds]) (root s))
             (taken s ++ [FixTwoThetaValue])) ∧
  node_get (h ++ [ds; ds]) (node_alter (recreated a) (h ++ [ds; ds]) (root s))
  = Some (Dataset zero_array a) ∧
  ∀ s', check_detector_transformations ver h s = Returns tt s' →
        node_get (h ++ [ds; ds]) (root s')
        = Some (Dataset zero_array (<["depends_on" := VBytes "."]> a)) ∧
        (a !! "depends_on" = Some (VBytes ".") →
         node_get (h ++ [ds; ds]) (root s') = Some (Dataset zero_array a)).
Proof.
  intros Hfind Hds Hc.
  assert (Hds0 : node_get ((h ++ [ds]) ++ [ds]) (root s) = Some (Dataset d a)).
  { by rewrite <- (assoc_L (++)). }
  split_and!.
  - rewrite (fix_two_theta_value_spec ver ds (h ++ [ds]) s d a true Hds0 Hc).
    by rewrite <- (assoc_L (++)).
  - by rewrite node_get_alter, Hds.
  - intros s' H. apply check_detector_transformations_inv in H
      as (ds0 & d0 & a0 & c & z & vec & s1 & Hfind0 & Hds1 & Hc0 & Hdep & _ & _
          & Hval & _ & Hds' & _).
    rewrite Hfind in Hfind0. injection Hfind0 as <-.
    rewrite Hds in Hds1. injection Hds1 as <- <-.
    rewrite Hc in Hc0. injection Hc0 as <-.
    split; [exact Hds'|]. intros Hdot. by rewrite Hds', insert_id.
Qed.

(** At the group whose two-theta value, 5.0, is its only discrepancy. *)
Lemma two_theta_attributes_after_fix_witness :
  fix_two_theta_value H5py3 "two_theta" ([] ++ ["two_theta"]) offset_group
  = Returns tt
      (State (node_alter
                (recreated {[ "depends_on" := VBytes "."; "units" := VBytes "deg" ]})
                ([] ++ ["two_theta"; "two_theta"]) (root offset_group))
             (taken offset_group ++ [FixTwoThetaValue])) ∧
  node_get ([] ++ ["two_theta"; "two_theta"])
    (root (final_state (check_detector_transformations H5py3 [] offset_group)))
  = Some (Dataset zero_array
            {[ "depends_on" := VBytes "."; "units" := VBytes "deg" ]}).
Proof.
  destruct (two_theta_attributes_after_fix H5py3 [] offset_group "two_theta"
              (VArr [five])
              {[ "depends_on" := VBytes "."; "units" := VBytes "deg" ]})
    as (Hstep & _ & Hcall).
  - vm_compute. reflexivity.
  - vm_compute. reflexivity.
  - vm_compute. reflexivity.
  - split; [exact Hstep|].
    apply (Hcall (final_state (check_detector_transformations H5py3 []
                                 offset_group))).
    + vm_compute. reflexivity.
    + vm_compute. reflexivity.
Defined.

End DetectorProperties.

(** ** The two fallbacks *)

Section Fallbacks.

Implicit Types (s : state) (h : path).

Lemma getitem_root (p : path) (k : path → M unit) s a ms :
  root s = Group a ms →
  bind (getitem [] p) k s
  = match node_get p (root s) with
    | Some _ => k p s
    | None => Raises KeyError s
    end.
Proof.
  intros Hs. unfold bind, getitem. rewrite Hs. simpl.
  by destruct (node_get p (Group a ms)).
Qed.

(** The second attempt looks the legacy place up and checks the group
    there, or raises [KeyError]. *)
Lemma legacy_attempt_spec ver s a ms :
  root s = Group a ms →
  legacy_attempt ver s
  = match node_get legacy_path (root s) with
    | Some _ => check_detector_transformations ver legacy_path s
    | None => Raises KeyError s
    end.
Proof. intros Hs. unfold legacy_attempt. by erewrite getitem_root. Qed.

(** The two lookups with a fallback, as the code has them.  The two-theta
    group is looked up under [two_theta] and, only when that name is
    absent, under [twotheta]; the lookup raises
    [KeyError] exactly when both are absent.  The detector transformations
    group is looked up at [entry/instrument/detector/transformations];
    [entry/instrument/transformations] is tried when the group is absent
    from the first place and also when the check of the group found there
    raises [KeyError], on the file as that check left it; with the group
    absent from both places the step raises [KeyError]. *)
Lemma fallback_lookups ver s ga ms h ha hms :
  root s = Group ga ms →
  node_get h (root s) = Some (Group ha hms) →
  find_two_theta h s
  = match hms !! "two_theta", hms !! "twotheta" with
    | Some _, _ => Returns ("two_theta", h ++ ["two_theta"]) s
    | None, Some _ => Returns ("twotheta", h ++ ["twotheta"]) s
    | None, None => Raises KeyError s
    end ∧
  check_detector ver [] s
  = match node_get primary_path (root s), node_get legacy_path (root s) with
    | Some _, _ =>
        match check_detector_transformations ver primary_path s with
        | Raises KeyError s1 => legacy_attempt ver s1
        | o => o
        end
    | None, Some _ => check_detector_transformations ver legacy_path s
    | None, None => Raises KeyError s
    end.
Proof.
  intros Hroot Hh. split; [by eapply find_two_theta_spec|].
  unfold check_detector, try_except_KeyError.
  rewrite (getitem_root _ _ s ga ms Hroot). fold primary_path.
  destruct (node_get primary_path (root s)) as [g|].
  - by destruct (check_detector_transformations ver primary_path s)
      as [[] s1|[] s1].
  - by rewrite (getitem_root _ _ s ga ms Hroot).
Qed.

End Fallbacks.

Section FallbackExamples.

(** At the tilted group taken as a whole file: it has a [two_theta] member,
    and neither place of the detector transformations group. *)
Lemma fallback_lookups_witness :
  find_two_theta [] tilted_group
  = Returns ("two_theta", [] ++ ["two_theta"]) tilted_group ∧
  check_detector H5py3 [] tilted_group = Raises KeyError tilted_group.
Proof.
  exact (fallback_lookups H5py3 tilted_group ∅ _ [] ∅ _ eq_refl eq_refl).
Defined.

(** C9, at the file with both places: the transformations group is present
    at its current place and lacks [detector_z]; the step reports no error
    and leaves that group without [detector_z], and the legacy place was
    sought all the same: the two-theta value of the group found there, 5.0
    before, has been corrected. *)
Theorem legacy_sought_with_primary_present ver :
  ∃ s',
    is_Some (node_get primary_path (root two_places_file)) ∧
    node_get (primary_path ++ det_z_name) (root two_places_file) = None ∧
    check_detector ver [] two_places_file = Returns tt s' ∧
    taken s' = [FixTwoThetaValue; FixTwoThetaDependsOn] ∧
    node_get (primary_path ++ det_z_name) (root s') = None ∧
    two_theta_value (node_get legacy_path (root two_places_file))
    = Some (VArr [five]) ∧
    two_theta_value (node_get legacy_path (root s')) = Some zero_array.
Proof.
  exists (final_state (check_detector ver [] two_places_file)).
  split_and!; try (by destruct ver; vm_compute).
  vm_compute. eauto.
Qed.

End FallbackExamples.

(** ** Running the checker on a written file, and running it twice *)

Section Runs.

(** A definition stored as a byte string is rewritten whatever it says:
    the value read is [bytes], and the function compares it with a [str]. *)
Lemma check_definition_bytes ver h s t a :
  node_get (h ++ ["entry"; "definition"]) (root s) = Some (Dataset (VBytes t) a) →
  check_definition ver h s
  = Returns tt (State (node_alter rewrite_definition (h ++ ["entry"]) (root s))
                      (taken s ++ [FixDefinition])).
Proof. intros Hd. eapply check_definition_correct; [exact Hd|by destruct ver]. Qed.

(** C8, at the file [write_NXmx_nexus] has just written: its definition is
    NXmx, stored as a byte string, and [check_definition] takes its
    correction branch all the same; the dataset is deleted and created again
    as a text string, so the file is not left unchanged. *)
Theorem definition_NXmx_is_rewritten ver :
  ∃ s',
    node_get ["entry"; "definition"] (root fresh_file)
    = Some (Dataset (VBytes "NXmx") ∅) ∧
    value_text (VBytes "NXmx") = Some "NXmx" ∧
    check_definition ver [] fresh_file = Returns tt s' ∧
    taken s' = [FixDefinition] ∧
    node_get ["entry"; "definition"] (root s') = Some (Dataset (VStr "NXmx") ∅) ∧
    root s' ≠ root fresh_file.
Proof.
  assert (Hd : node_get ([] ++ ["entry"; "definition"]) (root fresh_file)
               = Some (Dataset (VBytes "NXmx") ∅)) by by vm_compute.
  pose proof (check_definition_bytes ver [] fresh_file "NXmx" ∅ Hd) as Hrun.
  eexists. split_and!; [exact Hd|done|exact Hrun|done| |].
  - by vm_compute.
  - intros Heq. apply (f_equal (node_get ["entry"; "definition"])) in Heq.
    vm_compute in Heq. discriminate Heq.
Qed.

(** C2, at the file [write_NXmx_nexus] has just written with canonical
    chains: the writer returns, the definition it wrote is the byte string
    NXmx, and the checker takes the correction branch of
    [check_definition] on it (and no other). *)
Theorem fresh_file_definition_rewritten ver :
  ∃ s0 s',
    SpecWriters.write_example empty_file = Returns tt s0 ∧
    fresh_file = State (root s0) [] ∧
    node_get ["entry"; "definition"] (root fresh_file)
    = Some (Dataset (VBytes "NXmx") ∅) ∧
    run_checks ver fresh_file = Returns tt s' ∧
    taken s' = [FixDefinition].
Proof.
  exists (final_state (SpecWriters.write_example empty_file)),
         (final_state (run_checks ver fresh_file)).
  split_and!; [by vm_compute|done|by vm_compute|by destruct ver; vm_compute..].
Qed.

(** C3, at the file with the misspelt dependency: both runs return, and the
    second run again enters the branch meant to fix the dependency of
    [det_z] (under h5py 3 it also rewrites the definition again). *)
Theorem second_run_takes_correction_branches ver :
  ∃ s1 s2,
    run_checks ver typo_file = Returns tt s1 ∧
    run_checks ver (State (root s1) []) = Returns tt s2 ∧
    taken s2 = match ver with
               | H5py2 => [FixDetZDependsOn]
               | H5py3 => [FixDefinition; FixDetZDependsOn]
               end.
Proof.
  exists (final_state (run_checks ver typo_file)),
         (final_state
            (run_checks ver (State (root (final_state (run_checks ver typo_file))) []))).
  split_and!; by destruct ver; vm_compute.
Qed.

End Runs.

(** ** The sample checks on example files *)

Section SampleExamples.

(** At an empty sample group. *)
Lemma check_sample_depends_on_spec_witness :
  check_sample_depends_on H5py3 [] empty_file
  = Returns tt (State (node_alter create_depends_on [] (root empty_file))
                      (taken empty_file ++ [CreateSampleDependsOn])) ∧
  ∀ s', check_sample_depends_on H5py3 [] empty_file = Returns tt s' →
        ∃ d a, node_get ([] ++ ["depends_on"]) (root s') = Some (Dataset d a) ∧
               dataset_read H5py3 d = VBytes phi_target.
Proof.
  exact (check_sample_depends_on_spec H5py3 [] empty_file ∅ ∅ eq_refl).
Defined.

(** At the sample transformations of the file whose chain is broken at
    [phi]. *)
Lemma check_I19_dependency_tree_canonical_witness :
  ∃ s', check_I19_dependency_tree sample_transformations broken_chain_file
        = Returns tt s' ∧
        ∀ axis target, (axis, target) ∈ I19_chain →
          has_attr (root s') (sample_transformations ++ [axis]) "depends_on"
            (VBytes target).
Proof.
  apply (check_I19_dependency_tree_canonical sample_transformations
           broken_chain_file).
  intros axis Hin. apply list_elem_of_In in Hin. simpl in Hin.
  repeat (destruct Hin as [<-|Hin];
          [eexists _, _; split_and!;
           [vm_compute; reflexivity|vm_compute; reflexivity|vm_compute; eauto]|]).
  destruct Hin.
Defined.

End SampleExamples.

(** ** [write_NXmx_nexus]: the scan range *)

Section ScanRange.

Import NexusWriter.

Variables (Path DetectorScope ModuleScope SourceScope BeamScope
           AttenuatorScope ScanRange : Type).
Variable data_shape : Path → exn + list nat.
Variable find_number_of_images : list Path → exn + nat.
Variable find_scan_axis : list string → list scalar → list scalar → exn + string.
Variable calculate_scan_range :
  scalar → scalar → option scalar → option nat → exn + ScanRange.
Variable write_NXdata :
  path → list Path → goniometer_scope → string → string → ScanRange →
  string → option string → M unit.
Variable write_NXinstrument :
  path → BeamScope → AttenuatorScope → SourceScope → M unit.
Variable write_NXdetector :
  path → DetectorScope → string → string * nat → M unit.
Variable write_NXdetector_module :
  path → ModuleScope → string → DetectorScope → M unit.
Variable write_NXsource : path → SourceScope → M unit.
Variable write_NXsample :
  path → goniometer_scope → string → string → string → ScanRange → M unit.

Lemma number_of_images_inv datafiles n :
  number_of_images Path data_shape find_number_of_images datafiles = inr n →
  match datafiles with
  | [f] => ∃ rest, data_shape f = inr (n :: rest)
  | _ => find_number_of_images datafiles = inr n
  end.
Proof.
  destruct datafiles as [|f [|f' fs]]; simpl; try done.
  destruct (data_shape f) as [e|[|m rest]]; try done.
  intros [= ->]. eauto.
Qed.

Lemma compute_scan_range_inv goniometer osc_axis num_images scan_range :
  compute_scan_range ScanRange calculate_scan_range goniometer osc_axis num_images
  = inr scan_range →
  ∃ idx start end_ increment,
    list_index osc_axis (axes goniometer) = Some idx ∧
    starts goniometer !! idx = Some start ∧
    ends goniometer !! idx = Some end_ ∧
    increments goniometer !! idx = Some increment ∧
    if scalar_ne increment float_zero
    then calculate_scan_range start end_ (Some increment) None = inr scan_range
    else calculate_scan_range start end_ None (Some num_images) = inr scan_range.
Proof.
  unfold compute_scan_range, list_item.
  destruct (list_index osc_axis (axes goniometer)) as [idx|]; [|done].
  destruct (increments goniometer !! idx) as [increment|] eqn:Hinc; [|done].
  destruct (starts goniometer !! idx) as [start|] eqn:Hstart; [|done].
  destruct (ends goniometer !! idx) as [end_|] eqn:Hend; [|done].
  intros H. exists idx, start, end_, increment. split_and!; try done.
  by destruct (scalar_ne increment float_zero).
Qed.

(** Whenever [write_NXmx_nexus] returns, the scan range it handed to
    the writers was computed for the oscillation axis from its start, end
    and increment when that increment is not [0.0], and from its start, end
    and the number of images when the increment is [0.0]; the number of
    images is the first dimension of the [data] dataset of the data file
    when there is one file, and what [find_number_of_images] counts over
    the files otherwise. *)
Lemma write_NXmx_nexus_returns_inv nxsfile datafiles goniometer detector
    module source beam attenuator timestamps coordinate_frame vds s s' :
  write_NXmx_nexus Path DetectorScope ModuleScope SourceScope BeamScope
    AttenuatorScope ScanRange data_shape find_number_of_images find_scan_axis
    calculate_scan_range write_NXdata write_NXinstrument write_NXdetector
    write_NXdetector_module write_NXsource write_NXsample
    nxsfile datafiles goniometer detector module source beam attenuator
    timestamps coordinate_frame vds s = Returns tt s' →
  ∃ num_images osc_axis idx start end_ increment scan_range s1 s2,
    match datafiles with
    | [f] => ∃ rest, data_shape f = inr (num_images :: rest)
    | _ => find_number_of_images datafiles = inr num_images
    end ∧
    find_scan_axis (axes goniometer) (starts goniometer) (ends goniometer)
    = inr osc_axis ∧
    list_index osc_axis (axes goniometer) = Some idx ∧
    starts goniometer !! idx = Some start ∧
    ends goniometer !! idx = Some end_ ∧
    increments goniometer !! idx = Some increment ∧
    (if scalar_ne increment float_zero
     then calculate_scan_range start end_ (Some increment) None = inr scan_range
     else calculate_scan_range start end_ None (Some num_images) = inr scan_range) ∧
    call_writers Path DetectorScope ModuleScope SourceScope BeamScope
      AttenuatorScope ScanRange write_NXdata write_NXinstrument
      write_NXdetector write_NXdetector_module write_NXsource write_NXsample
      nxsfile datafiles coordinate_frame osc_axis scan_range
      ("images", num_images) goniometer detector module source beam
      attenuator vds s1 = Returns tt s2.
Proof.
  unfold write_NXmx_nexus. intros H.
  apply bind_Returns_inv in H as (num_images & s0 & Hn & H).
  apply lift_inv in Hn as [Hn ->]. apply number_of_images_inv in Hn.
  apply bind_Returns_inv in H as (osc_axis & s0 & Hosc & H).
  apply lift_inv in Hosc as [Hosc ->].
  apply bind_Returns_inv in H as (scan_range & s0 & Hsr & H).
  apply lift_inv in Hsr as [Hsr ->].
  apply compute_scan_range_inv in Hsr
    as (idx & start & end_ & increment & Hidx & Hstart & Hend & Hinc & Hcalc).
  unfold write_entry in H.
  apply bind_Returns_inv in H as ([] & s1 & _ & H).
  apply bind_Returns_inv in H as (nxentry & s2 & _ & H).
  apply bind_Returns_inv in H as ([] & s3 & _ & H).
  apply bind_Returns_inv in H as ([] & s4 & _ & H).
  apply bind_Returns_inv in H as (ds & s5 & _ & H).
  apply bind_Returns_inv in H as ([] & s6 & Hcall & H).
  exists num_images, osc_axis, idx, start, end_, increment, scan_range, s5, s6.
  by split_and!.
Qed.

(** C10. With the number of images taken from the data files (the first
    dimension of the [data] dataset of the file when there is one file, what
    [find_number_of_images] counts over the files otherwise) and the scan
    axis found among the axes of the goniometer, the scan range
    [write_NXmx_nexus] goes on with is the one computed from the start, the
    end and the increment of that axis when the increment is not [0.0], and
    the one computed from its start, its end and the number of images when
    the increment is [0.0]; a failure of that computation is raised before
    anything is written. *)
Theorem write_NXmx_nexus_scan_range nxsfile datafiles goniometer detector
    module source beam attenuator timestamps coordinate_frame vds s
    num_images osc_axis idx start end_ increment :
  match datafiles with
  | [f] => ∃ rest, data_shape f = inr (num_images :: rest)
  | _ => find_number_of_images datafiles = inr num_images
  end →
  find_scan_axis (axes goniometer) (starts goniometer) (ends goniometer)
  = inr osc_axis →
  list_index osc_axis (axes goniometer) = Some idx →
  starts goniometer !! idx = Some start →
  ends goniometer !! idx = Some end_ →
  increments goniometer !! idx = Some increment →
  write_NXmx_nexus Path DetectorScope ModuleScope SourceScope BeamScope
    AttenuatorScope ScanRange data_shape find_number_of_images find_scan_axis
    calculate_scan_range write_NXdata write_NXinstrument write_NXdetector
    write_NXdetector_module write_NXsource write_NXsample
    nxsfile datafiles goniometer detector module source beam attenuator
    timestamps coordinate_frame vds s
  = match (if scalar_ne increment float_zero
           then calculate_scan_range start end_ (Some increment) None
           else calculate_scan_range start end_ None (Some num_images)) with
    | inr scan_range =>
        write_entry Path DetectorScope ModuleScope SourceScope BeamScope
          AttenuatorScope ScanRange write_NXdata write_NXinstrument
          write_NXdetector write_NXdetector_module write_NXsource write_NXsample
          nxsfile datafiles goniometer detector module source beam attenuator
          timestamps coordinate_frame vds ("images", num_images) osc_axis
          scan_range s
    | inl e => Raises e s
    end.
Proof.
  intros Hn Hosc Hidx Hstart Hend Hinc.
  assert (Hnum : number_of_images Path data_shape find_number_of_images datafiles
                 = inr num_images).
  { destruct datafiles as [|f [|f' fs]]; simpl; try done.
    destruct Hn as [rest ->]. done. }
  unfold write_NXmx_nexus.
  unfold bind at 1. rewrite Hnum. simpl.
  unfold bind at 1. rewrite Hosc. simpl.
  unfold bind at 1, compute_scan_range, list_item.
  rewrite Hidx, Hinc, Hstart, Hend.
  by destruct (scalar_ne increment float_zero), (calculate_scan_range _ _ _ _).
Qed.

End ScanRange.

Section ScanRangeExample.

Import NexusWriter.

(** At an omega scan without a declared increment, over one data file of
    ten images: the range is asked for from 0 to 90 with the ten images. *)
Lemma write_NXmx_nexus_scan_range_witness :
  write_asked counted_goniometer empty_file
  = entry_asked ("images", 10) "omega" (SInt 0, SInt 90, None, Some 10) empty_file.
Proof.
  apply (write_NXmx_nexus_scan_range string unit unit unit unit unit asked_range
           SpecWriters.data_shape
           (SpecWriters.find_number_of_images SpecWriters.data_shape)
           SpecWriters.find_scan_axis ask_scan_range
           (λ f d g t c _ a v, SpecWriters.write_NXdata f d g t c [] a v)
           SpecWriters.write_NXinstrument SpecWriters.write_NXdetector
           SpecWriters.write_NXdetector_module SpecWriters.write_NXsource
           (λ f g c t a _, SpecWriters.write_NXsample f g c t a [])
           [] ["data_000001.h5"] counted_goniometer () () () () ()
           (None, None) "mcstas" None empty_file 10 "omega" 0
           (SInt 0) (SInt 90) (SInt 0)).
  - by exists [4; 4].
  - vm_compute. reflexivity.
  - vm_compute. reflexivity.
  - reflexivity.
  - reflexivity.
  - reflexivity.
Defined.

End ScanRangeExample.


(** * Further properties of the checker *)

(** ** [check_detector_transformations], in full *)

Section DetectorOutcome.

Implicit Types (s : state) (h p : path) (a : gmap string value).

Lemma attrs_get_None p k s n :
  node_get p (root s) = Some n → node_attrs n !! k = None →
  attrs_get p k s = Raises KeyError s.
Proof. intros Hp Hk. unfold attrs_get. by rewrite Hp, Hk. Qed.

(** The outcome of the function on a group that holds the two-theta dataset
    with a [depends_on] attribute and [detector_z/det_z] with a [vector]
    attribute: it returns when [det_z] has a [depends_on] attribute and
    raises [KeyError] at the last check when it has none, in both cases with
    the repairs made and the branches entered on the way. *)
Lemma check_detector_transformations_outcome ver h s ds d a c z vec dep0 :
  find_two_theta h s = Returns (ds, h ++ [ds]) s →
  node_get (h ++ [ds; ds]) (root s) = Some (Dataset d a) →
  ne_zero_truth (dataset_read ver d) = inr c →
  a !! "depends_on" = Some dep0 →
  node_get (h ++ det_z_name) (root s) = Some z →
  node_attrs z !! "vector" = Some vec →
  check_detector_transformations ver h s
  = let s' := State (detector_repaired h ds a c (vector_ne_any vec) (root s))
                    (taken s ++ detector_branches c (vector_ne_any vec) dep0
                                  (node_attrs z !! "depends_on")) in
    match node_attrs z !! "depends_on" with
    | Some _ => Returns tt s'
    | None => Raises KeyError s'
    end.
Proof.
  intros Hfind Hds Hc Hdep0 Hz Hvec.
  pose proof Hfind as Hne. apply find_two_theta_inv in Hne as (_ & _ & Hne & _).
  unfold check_detector_transformations.
  rewrite (bind_returns _ _ _ _ _ Hfind).
  assert (Hds0 : node_get ((h ++ [ds]) ++ [ds]) (root s) = Some (Dataset d a)).
  { by rewrite <- (assoc_L (++)). }
  rewrite (bind_returns _ _ _ _ _
             (fix_two_theta_value_spec ver ds (h ++ [ds]) s d a c Hds0 Hc)).
  rewrite <- (assoc_L (++)). simpl app.
  unfold detector_repaired, detector_branches.
  set (r1 := if c then node_alter (recreated a) (h ++ [ds; ds]) (root s) else root s).
  set (b1 := if c then [FixTwoThetaValue] else []).
  set (vne := vector_ne_any vec).
  set (r2 := if vne
             then node_alter (set_attr "vector" det_z_vector) (h ++ det_z_name) r1
             else r1).
  set (b2 := if vne then [FixDetZVector] else []).
  set (b3 := if py_ne dep0 (VBytes ".") then [FixTwoThetaDependsOn] else []).
  assert (Hds1 : node_get (h ++ [ds; ds]) r1
                 = Some (Dataset (if c then zero_array else d) a)).
  { unfold r1. destruct c; [|done]. by rewrite node_get_alter, Hds. }
  assert (Hz1 : node_get (h ++ det_z_name) r1 = Some z).
  { unfold r1. destruct c; [|done]. rewrite <- Hz.
    by apply (node_get_alter_fork _ h ds [ds] "detector_z" ["det_z"]). }
  erewrite bind_returns
    by (eapply (getitem_Some h "detector_z" ["det_z"] (State r1 _)), Hz1).
  (* the vector *)
  assert (Hstep2 : bind (attrs_get (h ++ ["detector_z"; "det_z"]) "vector")
                     (λ vector, when (vector_ne_any vector)
                        (take FixDetZVector >>
                         attrs_set (h ++ ["detector_z"; "det_z"]) "vector" det_z_vector))
                     (State r1 (taken s ++ b1))
                   = Returns tt (State r2 ((taken s ++ b1) ++ b2))).
  { erewrite bind_returns by (eapply attrs_get_Some; [exact Hz1|exact Hvec]).
    unfold r2, b2. fold vne. destruct vne; simpl; [|by rewrite app_nil_r].
    rewrite (bind_returns _ _ _ _ _ (take_eq _ _)).
    by erewrite attrs_set_Some by exact Hz1. }
  rewrite (bind_returns _ _ _ _ _ Hstep2).
  assert (Hds2 : node_get ((h ++ [ds]) ++ [ds]) r2
                 = Some (Dataset (if c then zero_array else d) a)).
  { rewrite <- (assoc_L (++)). simpl app. unfold r2.
    destruct vne; [|done]. rewrite <- Hds1.
    apply (node_get_alter_fork _ h "detector_z" ["det_z"] ds [ds]). congruence. }
  assert (∃ z2, node_get (h ++ det_z_name) r2 = Some z2 ∧
                node_attrs z2 !! "depends_on" = node_attrs z !! "depends_on")
    as (z2 & Hz2 & Hdep2).
  { unfold r2. destruct vne; [|by eauto].
    eexists. rewrite node_get_alter, Hz1. split; [done|].
    by rewrite node_attrs_set_attr, lookup_insert_ne. }
  (* the dependency of two-theta *)
  erewrite bind_returns
    by (eapply (fix_attr_spec FixTwoThetaDependsOn (h ++ [ds]) ds "depends_on" "."
                  (State r2 _)); [exact Hds2|exact Hdep0]).
  rewrite <- (assoc_L (++) h). simpl app. fold b3.
  (* the dependency of det_z *)
  assert (Hz3 : node_get (h ++ det_z_name)
                  (node_alter (set_attr "depends_on" (VBytes "."))
                     (h ++ [ds; ds]) r2) = Some z2).
  { rewrite <- Hz2.
    by apply (node_get_alter_fork _ h ds [ds] "detector_z" ["det_z"]). }
  destruct (node_attrs z !! "depends_on") as [dep|] eqn:Hdep; simpl.
  - erewrite bind_returns by (eapply attrs_get_Some; [exact Hz3|exact Hdep2]).
    destruct (py_ne dep (VBytes two_theta_target)); simpl.
    + rewrite (bind_returns _ _ _ _ _ (take_eq _ _)).
      erewrite bind_returns by (eapply attrs_get_Some; [exact Hz3|exact Hdep2]).
      unfold ret. simpl. by rewrite <- !(assoc_L (++)).
    + unfold ret. by rewrite app_nil_r, <- !(assoc_L (++)).
  - rewrite app_nil_r, <- !(assoc_L (++)).
    eapply bind_raises, attrs_get_None; [exact Hz3|exact Hdep2].
Qed.

End DetectorOutcome.

Section DetectorFurther.

Implicit Types (s : state) (h p q : path) (a : gmap string value).

Lemma node_get_alter_forks f p q r :
  forks p q → node_get q (node_alter f p r) = node_get q r.
Proof.
  intros (c & k & k' & p' & q' & -> & -> & Hne). by apply node_get_alter_fork.
Qed.

(** Altering an object two or more components below [h] neither adds nor
    removes a member of the group at [h]. *)
Lemma is_Some_node_get_alter_below f h name k q' r :
  is_Some (node_get (h ++ [name]) (node_alter f (h ++ k :: q') r))
  ↔ is_Some (node_get (h ++ [name]) r).
Proof.
  destruct (decide (k = name)) as [->|Hne].
  - change (h ++ name :: q') with (h ++ [name] ++ q').
    rewrite (assoc_L (++)), node_alter_app, node_get_alter.
    by rewrite fmap_is_Some.
  - by rewrite (node_get_alter_fork _ h k q' name []).
Qed.

(** The lookup of the two-theta group sees only which members the group has. *)
Lemma find_two_theta_preserved h s s1 ds :
  find_two_theta h s = Returns (ds, h ++ [ds]) s →
  (∀ name, is_Some (node_get (h ++ [name]) (root s1))
           ↔ is_Some (node_get (h ++ [name]) (root s))) →
  find_two_theta h s1 = Returns (ds, h ++ [ds]) s1.
Proof.
  intros Hfind Hsame.
  pose proof Hfind as Hds. apply find_two_theta_inv in Hds as (_ & _ & _ & Hds).
  pose proof Hds as Hds1. apply Hsame in Hds1.
  destruct Hds as [n Hn], Hds1 as [n1 Hn1].
  apply (node_get_app_cons_group h ds []) in Hn as (ha & hms & Hh & _).
  apply (node_get_app_cons_group h ds []) in Hn1 as (ha1 & hms1 & Hh1 & _).
  rewrite (find_two_theta_spec h s ha hms Hh) in Hfind.
  rewrite (find_two_theta_spec h s1 ha1 hms1 Hh1).
  assert (Hmem : ∀ name, is_Some (hms1 !! name) ↔ is_Some (hms !! name)).
  { intros name. specialize (Hsame name).
    rewrite !node_get_app, Hh, Hh1 in Hsame. simpl in Hsame.
    rewrite !is_Some_alt in Hsame. rewrite !is_Some_alt.
    destruct (hms !! name), (hms1 !! name); simpl in *; tauto. }
  pose proof (Hmem "two_theta") as H1. pose proof (Hmem "twotheta") as H2.
  rewrite !is_Some_alt in H1, H2.
  destruct (hms !! "two_theta"), (hms1 !! "two_theta"); try tauto.
  - by injection Hfind as <-.
  - destruct (hms !! "twotheta"), (hms1 !! "twotheta"); try tauto; try done.
    by injection Hfind as <-.
Qed.

(** A run that returned, read back in full. *)
Lemma check_detector_transformations_Returns_inv ver h s s' :
  check_detector_transformations ver h s = Returns tt s' →
  ∃ ds d a c z vec dep0 dep,
    find_two_theta h s = Returns (ds, h ++ [ds]) s ∧
    node_get (h ++ [ds; ds]) (root s) = Some (Dataset d a) ∧
    ne_zero_truth (dataset_read ver d) = inr c ∧
    a !! "depends_on" = Some dep0 ∧
    node_get (h ++ det_z_name) (root s) = Some z ∧
    node_attrs z !! "vector" = Some vec ∧
    node_attrs z !! "depends_on" = Some dep ∧
    s' = State (detector_repaired h ds a c (vector_ne_any vec) (root s))
               (taken s ++ detector_branches c (vector_ne_any vec) dep0 (Some dep)).
Proof.
  intros H. pose proof H as H'.
  apply check_detector_transformations_inv in H'
    as (ds & d & a & c & z & vec & s1 & Hfind & Hds & Hc & [dep0 Hdep0] & Hz & Hvec & _).
  rewrite (check_detector_transformations_outcome ver h s ds d a c z vec dep0
             Hfind Hds Hc Hdep0 Hz Hvec) in H.
  destruct (node_attrs z !! "depends_on") as [dep|] eqn:Hdep; [|done].
  simpl in H. injection H as <-.
  by exists ds, d, a, c, z, vec, dep0, dep.
Qed.

Lemma detector_repaired_canonical h ds a r d :
  node_get (h ++ [ds; ds]) r = Some (Dataset d a) →
  a !! "depends_on" = Some (VBytes ".") →
  detector_repaired h ds a false false r = r.
Proof.
  intros Hds Hdep. unfold detector_repaired. apply node_alter_id.
  intros n Hn. rewrite Hds in Hn. injection Hn as <-. by apply set_attr_id.
Qed.

(** On a group whose two-theta value, two-theta [depends_on] and [det_z]
    vector are canonical, the function returns with the file as it was; it
    enters the branch for the dependency of [det_z] when that one is not
    canonical, and no other. *)
Lemma check_detector_transformations_settled ver h s ds d a z vec dep :
  find_two_theta h s = Returns (ds, h ++ [ds]) s →
  node_get (h ++ [ds; ds]) (root s) = Some (Dataset d a) →
  ne_zero_truth (dataset_read ver d) = inr false →
  a !! "depends_on" = Some (VBytes ".") →
  node_get (h ++ det_z_name) (root s) = Some z →
  node_attrs z !! "vector" = Some vec →
  vector_ne_any vec = false →
  node_attrs z !! "depends_on" = Some dep →
  check_detector_transformations ver h s
  = Returns tt
      (State (root s)
             (taken s ++ if py_ne dep (VBytes two_theta_target)
                         then [FixDetZDependsOn] else [])).
Proof.
  intros Hfind Hds Hc Hdep0 Hz Hvec Hvne Hdep.
  rewrite (check_detector_transformations_outcome ver h s ds d a false z vec _
             Hfind Hds Hc Hdep0 Hz Hvec).
  rewrite Hdep, Hvne. simpl.
  by rewrite (detector_repaired_canonical h ds a (root s) d Hds Hdep0).
Qed.

(** X1.  On a detector transformations group that is already canonical (a
    two-theta value that is not [!= 0], [depends_on] of two-theta equal to
    [b"."], a [det_z] vector with no element different from [[0, 0, -1]] and
    the canonical [depends_on] on [det_z]) the function returns without
    entering any correction branch and leaves the file exactly as it was. *)
Theorem check_detector_transformations_canonical_untouched ver h s ds d a z vec :
  find_two_theta h s = Returns (ds, h ++ [ds]) s →
  node_get (h ++ [ds; ds]) (root s) = Some (Dataset d a) →
  ne_zero_truth (dataset_read ver d) = inr false →
  a !! "depends_on" = Some (VBytes ".") →
  node_get (h ++ det_z_name) (root s) = Some z →
  node_attrs z !! "vector" = Some vec →
  vector_ne_any vec = false →
  node_attrs z !! "depends_on" = Some (VBytes two_theta_target) →
  check_detector_transformations ver h s = Returns tt s.
Proof.
  intros Hfind Hds Hc Hdep0 Hz Hvec Hvne Hdep.
  rewrite (check_detector_transformations_settled ver h s ds d a z vec _
             Hfind Hds Hc Hdep0 Hz Hvec Hvne Hdep).
  simpl. rewrite app_nil_r. by destruct s.
Qed.

Lemma detector_repaired_two_theta h ds a c vne r d :
  node_get (h ++ [ds; ds]) r = Some (Dataset d a) →
  ds ≠ "detector_z" →
  node_get (h ++ [ds; ds]) (detector_repaired h ds a c vne r)
  = Some (Dataset (if c then zero_array else d) (<["depends_on" := VBytes "."]> a)).
Proof.
  intros Hds Hne. unfold detector_repaired. rewrite node_get_alter.
  assert (H1 : node_get (h ++ [ds; ds])
                 (if c then node_alter (recreated a) (h ++ [ds; ds]) r else r)
               = Some (Dataset (if c then zero_array else d) a)).
  { destruct c; [|done]. by rewrite node_get_alter, Hds. }
  destruct vne; [|by rewrite H1].
  unfold det_z_name.
  rewrite (node_get_alter_fork _ h "detector_z" ["det_z"] ds [ds]) by congruence.
  by rewrite H1.
Qed.

Lemma detector_repaired_det_z h ds a c vne r z :
  node_get (h ++ det_z_name) r = Some z →
  ds ≠ "detector_z" →
  node_get (h ++ det_z_name) (detector_repaired h ds a c vne r)
  = Some (if vne then set_attr "vector" det_z_vector z else z).
Proof.
  intros Hz Hne. unfold detector_repaired, det_z_name in *.
  rewrite (node_get_alter_fork _ h ds [ds] "detector_z" ["det_z"]) by done.
  assert (H1 : node_get (h ++ ["detector_z"; "det_z"])
                 (if c then node_alter (recreated a) (h ++ [ds; ds]) r else r)
               = Some z).
  { destruct c; [|done].
    by rewrite (node_get_alter_fork _ h ds [ds] "detector_z" ["det_z"]). }
  destruct vne; [|done]. by rewrite node_get_alter, H1.
Qed.

Lemma detector_repaired_members h ds a c vne r name :
  is_Some (node_get (h ++ [name]) (detector_repaired h ds a c vne r))
  ↔ is_Some (node_get (h ++ [name]) r).
Proof.
  unfold detector_repaired, det_z_name.
  rewrite is_Some_node_get_alter_below.
  destruct vne, c; rewrite ?is_Some_node_get_alter_below; done.
Qed.



(** X2.  A second run of the function on the file a first run returned
    from changes nothing in the file, and the only correction branch it can
    enter is the one for the dependency of [det_z], which it enters exactly
    when that dependency was not canonical to begin with. *)
Theorem check_detector_transformations_second_run ver h s s1 :
  check_detector_transformations ver h s = Returns tt s1 →
  ∃ dep,
    has_attr (root s) (h ++ det_z_name) "depends_on" dep ∧
    check_detector_transformations ver h s1
    = Returns tt
        (State (root s1)
               (taken s1 ++ if py_ne dep (VBytes two_theta_target)
                            then [FixDetZDependsOn] else [])).
Proof.
  intros H.
  apply check_detector_transformations_Returns_inv in H
    as (ds & d & a & c & z & vec & dep0 & dep
        & Hfind & Hds & Hc & Hdep0 & Hz & Hvec & Hdep & ->).
  exists dep. split; [by exists z|].
  pose proof Hfind as Hne. apply find_two_theta_inv in Hne as (_ & _ & Hne & _).
  set (vne := vector_ne_any vec).
  set (s1 := State (detector_repaired h ds a c vne (root s)) _).
  assert (Hfind1 : find_two_theta h s1 = Returns (ds, h ++ [ds]) s1).
  { apply (find_two_theta_preserved h s s1 ds Hfind).
    intros name. apply detector_repaired_members. }
  pose proof (detector_repaired_two_theta h ds a c vne (root s) d Hds Hne) as Hds1.
  pose proof (detector_repaired_det_z h ds a c vne (root s) z Hz Hne) as Hz1.
  assert (Hc1 : ne_zero_truth (dataset_read ver (if c then zero_array else d))
                = inr false).
  { destruct c; [by destruct ver|done]. }
  assert (Hvec1 : node_attrs (if vne then set_attr "vector" det_z_vector z else z)
                    !! "vector"
                  = Some (if vne then det_z_vector else vec)).
  { destruct vne; [|done]. by rewrite node_attrs_set_attr, lookup_insert_eq. }
  assert (Hvne1 : vector_ne_any (if vne then det_z_vector else vec) = false).
  { unfold vne. by destruct (vector_ne_any vec) eqn:E. }
  assert (Hdep1 : node_attrs (if vne then set_attr "vector" det_z_vector z else z)
                    !! "depends_on" = Some dep).
  { destruct vne; [|done]. by rewrite node_attrs_set_attr, lookup_insert_ne. }
  rewrite (check_detector_transformations_outcome ver h s1 ds _ _ false _ _
             (VBytes ".") Hfind1 Hds1 Hc1 (lookup_insert_eq _ _ _) Hz1 Hvec1).
  rewrite Hdep1, Hvne1. simpl.
  rewrite (detector_repaired_canonical h ds _ _ _ Hds1 (lookup_insert_eq _ _ _)).
  done.
Qed.


(** When the group has neither a [two_theta] nor a [twotheta] member the
    function raises [KeyError] and the file is untouched. *)
Lemma check_detector_transformations_no_two_theta ver h s ha hms :
  node_get h (root s) = Some (Group ha hms) →
  hms !! "two_theta" = None → hms !! "twotheta" = None →
  check_detector_transformations ver h s = Raises KeyError s.
Proof.
  intros Hh H1 H2. unfold check_detector_transformations.
  apply bind_raises. by rewrite (find_two_theta_spec h s ha hms Hh), H1, H2.
Qed.

(** X4.  When [detector_z/det_z] is missing the function raises [KeyError],
    but only after the two-theta value was looked at: a value that was
    [!= 0] has by then been corrected, and the correction stays in the
    file. *)
Theorem check_detector_transformations_no_det_z ver h s ds d a c :
  find_two_theta h s = Returns (ds, h ++ [ds]) s →
  node_get (h ++ [ds; ds]) (root s) = Some (Dataset d a) →
  ne_zero_truth (dataset_read ver d) = inr c →
  node_get (h ++ det_z_name) (root s) = None →
  check_detector_transformations ver h s
  = Raises KeyError
      (State (if c then node_alter (recreated a) (h ++ [ds; ds]) (root s)
              else root s)
             (taken s ++ if c then [FixTwoThetaValue] else [])).
Proof.
  intros Hfind Hds Hc Hz.
  pose proof Hfind as Hne. apply find_two_theta_inv in Hne as (_ & _ & Hne & _).
  unfold check_detector_transformations.
  rewrite (bind_returns _ _ _ _ _ Hfind).
  assert (Hds0 : node_get ((h ++ [ds]) ++ [ds]) (root s) = Some (Dataset d a)).
  { by rewrite <- (assoc_L (++)). }
  rewrite (bind_returns _ _ _ _ _
             (fix_two_theta_value_spec ver ds (h ++ [ds]) s d a c Hds0 Hc)).
  rewrite <- (assoc_L (++)). simpl app.
  apply bind_raises.
  pose proof Hds as Hh.
  apply (node_get_app_cons_group h ds [ds]) in Hh as (ha & hms & Hh & _).
  set (r1 := if c then _ else _).
  assert (Hh1 : ∃ hms1, node_get h r1 = Some (Group ha hms1)) .
  { unfold r1. destruct c; [|by eauto].
    rewrite node_alter_app, node_get_alter, Hh. simpl. eauto. }
  destruct Hh1 as [hms1 Hh1].
  eapply getitem_None; [exact Hh1|].
  assert (Hz1 : node_get (h ++ det_z_name) r1 = None).
  { unfold r1. destruct c; [|done]. rewrite <- Hz.
    by apply (node_get_alter_fork _ h ds [ds] "detector_z" ["det_z"]). }
  rewrite node_get_app, Hh1 in Hz1. exact Hz1.
Qed.

(** X5.  A two-theta dataset that holds an array of two or more numbers has
    no truth value under [!= 0]: the function raises [ValueError] and the
    file is untouched. *)
Theorem check_detector_transformations_long_array ver h s ds x y xs a :
  find_two_theta h s = Returns (ds, h ++ [ds]) s →
  node_get (h ++ [ds; ds]) (root s) = Some (Dataset (VArr (x :: y :: xs)) a) →
  check_detector_transformations ver h s = Raises ValueError s.
Proof.
  intros Hfind Hds. unfold check_detector_transformations.
  rewrite (bind_returns _ _ _ _ _ Hfind). apply bind_raises.
  assert (Hds0 : node_get ((h ++ [ds]) ++ [ds]) (root s)
                 = Some (Dataset (VArr (x :: y :: xs)) a)).
  { by rewrite <- (assoc_L (++)). }
  unfold fix_two_theta_value.
  erewrite bind_returns by (eapply (getitem_Some (h ++ [ds]) ds []), Hds0).
  erewrite bind_returns by (eapply read_Dataset, Hds0).
  by destruct ver.
Qed.

End DetectorFurther.

(** ** [check_I19_dependency_tree], further *)

Section DependencyTreeFurther.

Implicit Types (s : state) (h q : path) (axis target : string).

Lemma fix_axis_depends_on_canonical h axis target s :
  has_attr (root s) (h ++ [axis]) "depends_on" (VBytes target) →
  fix_axis_depends_on h axis target s = Returns tt s.
Proof.
  intros (n & Hn & Hdep). unfold fix_axis_depends_on.
  rewrite (fix_attr_spec (FixAxisDependsOn axis) h axis "depends_on" target s n
             (VBytes target) Hn Hdep).
  simpl. rewrite bool_decide_eq_true_2 by done. simpl. rewrite app_nil_r.
  rewrite node_alter_id; [by destruct s|].
  intros c Hc. rewrite Hn in Hc. injection Hc as <-. by apply set_attr_id.
Qed.

Lemma for_each_fix_axis_canonical h steps s :
  (∀ axis target, (axis, target) ∈ steps →
     has_attr (root s) (h ++ [axis]) "depends_on" (VBytes target)) →
  for_each steps (λ at_, fix_axis_depends_on h at_.1 at_.2) s = Returns tt s.
Proof.
  induction steps as [|[a t] steps IH]; intros Hall; [done|]. simpl.
  rewrite (bind_returns _ _ _ _ _
             (fix_axis_depends_on_canonical h a t s (Hall a t (list_elem_of_here _ _)))).
  apply IH. intros axis target Hin. apply Hall. by apply list_elem_of_further.
Qed.

(** X6.  [check_I19_dependency_tree] is idempotent: run again on the file it
    returned from, it enters no correction branch and returns the very same
    file. *)
Theorem check_I19_dependency_tree_idempotent h s s1 :
  check_I19_dependency_tree h s = Returns tt s1 →
  check_I19_dependency_tree h s1 = Returns tt s1.
Proof.
  rewrite !check_I19_dependency_tree_steps. intros H.
  apply for_each_fix_axis in H as [H _]; [|compute_done].
  by apply for_each_fix_axis_canonical.
Qed.

(** A run of steps that returned: what each axis became, what stayed, and
    that every axis was there with the attribute. *)
Lemma for_each_fix_axis_effect h steps s s' :
  NoDup steps.*1 →
  for_each steps (λ at_, fix_axis_depends_on h at_.1 at_.2) s = Returns tt s' →
  (∀ axis target, (axis, target) ∈ steps →
     node_get (h ++ [axis]) (root s')
     = set_attr "depends_on" (VBytes target) <$> node_get (h ++ [axis]) (root s)) ∧
  (∀ q, (∀ axis, axis ∈ steps.*1 → forks (h ++ [axis]) q) →
     node_get q (root s') = node_get q (root s)) ∧
  (∀ axis, axis ∈ steps.*1 →
     ∃ n, node_get (h ++ [axis]) (root s) = Some n ∧
          is_Some (node_attrs n !! "depends_on")).
Proof.
  revert s. induction steps as [|[a t] steps IH]; intros s Hnd H.
  - injection H as <-. split_and!; [|done|]; intros ?; intros; by apply elem_of_nil in H.
  - simpl in *. apply NoDup_cons in Hnd as [Ha Hnd].
    apply bind_Returns_inv in H as ([] & s1 & Hstep & H).
    pose proof Hstep as Hstep'.
    apply fix_attr_inv in Hstep' as [(n & v & Hn & Hv) Hroot].
    destruct (IH s1 Hnd H) as (IHin & IHout & IHpre).
    assert (Hother : ∀ axis, axis ∈ steps.*1 →
               node_get (h ++ [axis]) (root s1) = node_get (h ++ [axis]) (root s)).
    { intros axis Hin. rewrite Hroot.
      apply (node_get_alter_fork _ h a [] axis []). by intros ->. }
    split_and!.
    + intros axis target [[= -> ->]|Hin]%elem_of_cons.
      * rewrite IHout, Hroot; [by rewrite node_get_alter|].
        intros axis Hin. exists h, axis, a, [], []. split_and!; [done..|].
        by intros ->.
      * rewrite (IHin axis target Hin). f_equal. apply Hother.
        apply list_elem_of_fmap. by exists (axis, target).
    + intros q Hq. rewrite IHout by (intros axis Hin; apply Hq; by right).
      rewrite Hroot. apply node_get_alter_forks, Hq. by left.
    + intros axis [->|Hin]%elem_of_cons; [by eauto|].
      rewrite <- (Hother axis Hin). by apply IHpre.
Qed.

(** X7.  When [check_I19_dependency_tree] returns, each of the six axes is
    the object it was with its [depends_on] attribute set to the canonical
    target: its value and its other attributes are as before. *)
Theorem check_I19_dependency_tree_axis h s s' axis target :
  check_I19_dependency_tree h s = Returns tt s' →
  (axis, target) ∈ I19_chain →
  node_get (h ++ [axis]) (root s')
  = set_attr "depends_on" (VBytes target) <$> node_get (h ++ [axis]) (root s).
Proof.
  rewrite check_I19_dependency_tree_steps. intros H Hin.
  apply for_each_fix_axis_effect in H as (H & _ & _); [|compute_done].
  apply H. apply list_elem_of_In. apply list_elem_of_In in Hin.
  unfold I19_chain, I19_steps in *. simpl in *. tauto.
Qed.


Lemma fix_axis_depends_on_raises h axis target s a ms e s' :
  node_get h (root s) = Some (Group a ms) →
  fix_axis_depends_on h axis target s = Raises e s' → e = KeyError.
Proof.
  intros Hh. unfold fix_axis_depends_on, bind, getitem. rewrite Hh. simpl.
  destruct (ms !! axis) as [n|] eqn:Hax; simpl; [|by intros [= <- _]].
  assert (Hn : node_get (h ++ [axis]) (root s) = Some n).
  { rewrite node_get_app, Hh. simpl. by rewrite Hax. }
  unfold attrs_get. rewrite Hn.
  destruct (node_attrs n !! "depends_on") as [dep|]; [|by intros [= <- _]].
  destruct (py_ne dep (VBytes target)); simpl; [|done].
  unfold take. rewrite Hh. simpl. rewrite Hax. simpl.
  unfold attrs_set. simpl. by rewrite Hn.
Qed.

Lemma for_each_fix_axis_raises h steps s a ms e s' :
  node_get h (root s) = Some (Group a ms) →
  for_each steps (λ at_, fix_axis_depends_on h at_.1 at_.2) s = Raises e s' →
  e = KeyError.
Proof.
  revert s ms. induction steps as [|[ax t] steps IH]; intros s ms Hh H; [done|].
  simpl in H. unfold bind in H.
  destruct (fix_axis_depends_on h ax t s) as [[] s1|e1 s1] eqn:Hstep.
  - apply fix_axis_depends_on_inv in Hstep as [_ Hroot].
    assert (∃ ms1, node_get h (root s1) = Some (Group a ms1)) as [ms1 Hh1].
    { rewrite Hroot, node_alter_app, node_get_alter, Hh. simpl. eauto. }
    by eapply IH.
  - injection H as -> ->. by eapply fix_axis_depends_on_raises.
Qed.


End DependencyTreeFurther.

(** ** [check_sample_depends_on] and [check_definition], further *)

Section SampleFurther.

Implicit Types (s : state) (h q : path).

Lemma check_sample_depends_on_handle ver h s s1 :
  check_sample_depends_on ver h s = Returns tt s1 →
  ∃ ga ms, node_get h (root s) = Some (Group ga ms).
Proof.
  unfold check_sample_depends_on, try_except_KeyError, bind, getitem.
  destruct (node_get h (root s)) as [[d a|ga ms]|]; [done|by eauto|done].
Qed.

Lemma py_ne_phi ver :
  py_ne (dataset_read ver (VBytes phi_target)) (VBytes phi_target) = false.
Proof. by destruct ver. Qed.

(** X10.  [check_sample_depends_on] is idempotent: run again on the file it
    returned from, it enters no branch and returns the very same file. *)
Theorem check_sample_depends_on_idempotent ver h s s1 :
  check_sample_depends_on ver h s = Returns tt s1 →
  check_sample_depends_on ver h s1 = Returns tt s1.
Proof.
  intros H. pose proof H as Hh.
  apply check_sample_depends_on_handle in Hh as (ga & ms & Hh).
  assert (Hnew : ∀ (f : node → node) t,
             (∃ ms', f (Group ga ms) = Group ga ms' ∧
                     ms' !! "depends_on" = Some phi_dataset) →
             check_sample_depends_on ver h (State (node_alter f h (root s)) t)
             = Returns tt (State (node_alter f h (root s)) t)).
  { intros f t (ms' & Hf & Hdep).
    erewrite check_sample_depends_on_present; cycle 1.
    - simpl. by rewrite node_get_alter, Hh, <- Hf.
    - exact Hdep.
    - by rewrite py_ne_phi. }
  destruct (ms !! "depends_on") as [[d a|ga' ms']|] eqn:Hk.
  - rewrite (check_sample_depends_on_present ver h s ga ms d a Hh Hk) in H.
    destruct (py_ne (dataset_read ver d) (VBytes phi_target)) eqn:Hne;
      injection H as <-.
    + apply Hnew. eexists. split; [reflexivity|apply lookup_insert_eq].
    + by rewrite (check_sample_depends_on_present ver h s ga ms d a Hh Hk), Hne.
  - by rewrite (check_sample_depends_on_group ver h s ga ms ga' ms' Hh Hk) in H.
  - rewrite (check_sample_depends_on_absent ver h s ga ms Hh Hk) in H.
    injection H as <-.
    apply Hnew. eexists. split; [reflexivity|apply lookup_insert_eq].
Qed.

(** A group altered in one member only: names that part ways with that
    member do not see the change. *)
Lemma node_get_alter_member_forks (f : node → node) h k q r :
  (∀ g k' q', k' ≠ k → node_get (k' :: q') (f g) = node_get (k' :: q') g) →
  forks (h ++ [k]) q →
  node_get q (node_alter f h r) = node_get q r.
Proof.
  intros Hf (c & k0 & k' & p' & q' & Hp & -> & Hne).
  destruct p' as [|x p' _] using rev_ind.
  - apply app_inj_tail in Hp as [-> ->].
    rewrite node_get_alter_app, node_get_app.
    destruct (node_get c r) as [g|]; [|done]. simpl. by apply Hf.
  - change (c ++ k0 :: p' ++ [x]) with (c ++ (k0 :: p') ++ [x]) in Hp.
    rewrite (assoc_L (++)) in Hp. apply app_inj_tail in Hp as [-> _].
    by apply node_get_alter_fork.
Qed.

Lemma link_unlink_other k c g k' q' :
  k' ≠ k →
  node_get (k' :: q') (link k c (unlink k g)) = node_get (k' :: q') g.
Proof.
  intros Hne. destruct g as [d a|a ms]; [done|]. simpl.
  by rewrite lookup_insert_ne, lookup_delete_ne.
Qed.

Lemma link_other k c g k' q' :
  k' ≠ k → node_get (k' :: q') (link k c g) = node_get (k' :: q') g.
Proof.
  intros Hne. destruct g as [d a|a ms]; [done|]. simpl.
  by rewrite lookup_insert_ne.
Qed.


Lemma check_definition_inv ver h s s1 :
  check_definition ver h s = Returns tt s1 →
  ∃ d a, node_get (h ++ ["entry"; "definition"]) (root s) = Some (Dataset d a).
Proof.
  unfold check_definition. intros H.
  apply bind_Returns_inv in H as (ds & s0 & Hget & H).
  apply getitem_inv in Hget as (-> & -> & _).
  apply bind_Returns_inv in H as (v & s0 & Hread & _).
  apply read_inv in Hread as (_ & d & a & Hd & _). eauto.
Qed.

Lemma py_ne_NXmx_false ver d :
  py_ne (dataset_read ver d) NXmx = false → d = NXmx.
Proof.
  destruct d as [t|t| |], ver; simpl; try done;
    intros H%negb_false_iff; by apply bool_decide_eq_true in H as ->.
Qed.

Lemma rewrite_definition_again r h :
  node_alter rewrite_definition (h ++ ["entry"])
    (node_alter rewrite_definition (h ++ ["entry"]) r)
  = node_alter rewrite_definition (h ++ ["entry"]) r.
Proof.
  rewrite node_alter_compose. apply node_alter_ext. intros [d a|a ms] _; [done|].
  unfold rewrite_definition. simpl.
  by rewrite delete_insert_eq, delete_delete_eq.
Qed.

(** X12.  When [check_definition] returns, [entry/definition] is stored as
    the text string "NXmx", and a second run does not change the file any
    further (under h5py 3 it deletes the dataset and creates the same one
    again). *)
Theorem check_definition_settles ver h s s1 :
  check_definition ver h s = Returns tt s1 →
  (∃ a, node_get (h ++ ["entry"; "definition"]) (root s1) = Some (Dataset NXmx a)) ∧
  ∃ s2, check_definition ver h s1 = Returns tt s2 ∧ root s2 = root s1.
Proof.
  intros H. pose proof H as Hd. apply check_definition_inv in Hd as (d & a & Hd).
  destruct (py_ne (dataset_read ver d) NXmx) eqn:Hne.
  - rewrite (check_definition_correct ver h s d a Hd Hne) in H. injection H as <-.
    assert (∃ ea ems, node_get (h ++ ["entry"]) (root s) = Some (Group ea ems))
      as (ea & ems & He).
    { change (h ++ ["entry"; "definition"])
        with (h ++ ["entry"] ++ ["definition"]) in Hd.
      rewrite (assoc_L (++)) in Hd.
      apply node_get_app_cons_group in Hd as (ea & ems & He & _). eauto. }
    pose proof (node_get_rewrite_definition h (root s) ea ems He) as Hnew.
    split; [by exists ∅|].
    destruct (py_ne (dataset_read ver NXmx) NXmx) eqn:Hne1.
    + eexists. split; [by eapply check_definition_correct|].
      apply rewrite_definition_again.
    + eexists. split; [by eapply check_definition_unchanged|done].
  - rewrite (check_definition_unchanged ver h s d a Hd Hne) in H. injection H as <-.
    apply py_ne_NXmx_false in Hne as Heq. subst d.
    split; [by exists a|]. exists s. split; [|done].
    by eapply check_definition_unchanged.
Qed.

End SampleFurther.

(** ** [run_checks], further *)

Section RunsFurther.

Implicit Types (s : state).

(** X13.  On a file without [entry/definition] (or without [entry])
    [run_checks] raises [KeyError] at its first check and the file is
    untouched: a missing definition is not created. *)
Theorem run_checks_no_definition ver s ga ms :
  root s = Group ga ms →
  node_get ["entry"; "definition"] (root s) = None →
  run_checks ver s = Raises KeyError s.
Proof.
  intros Hroot Hd. unfold run_checks, check_definition.
  do 2 apply bind_raises.
  apply (getitem_None [] "entry" ["definition"] s ga ms);
    [simpl; by rewrite Hroot|by rewrite <- Hroot].
Qed.

(** X14.  A file that is canonical throughout passes [run_checks] untouched
    and without a single correction branch: the definition reads as the
    string "NXmx", the detector transformations group at its current place
    is canonical, the sample's [depends_on] reads as
    [b"/entry/sample/transformations/phi"], and the six goniometer axes
    carry the canonical chain. *)
Theorem run_checks_canonical_untouched ver s ga ms d a ds d0 a0 z vec sa sms d1 a1 :
  root s = Group ga ms →
  node_get ["entry"; "definition"] (root s) = Some (Dataset d a) →
  py_ne (dataset_read ver d) NXmx = false →
  find_two_theta primary_path s = Returns (ds, primary_path ++ [ds]) s →
  node_get (primary_path ++ [ds; ds]) (root s) = Some (Dataset d0 a0) →
  ne_zero_truth (dataset_read ver d0) = inr false →
  a0 !! "depends_on" = Some (VBytes ".") →
  node_get (primary_path ++ det_z_name) (root s) = Some z →
  node_attrs z !! "vector" = Some vec →
  vector_ne_any vec = false →
  node_attrs z !! "depends_on" = Some (VBytes two_theta_target) →
  node_get ["entry"; "sample"] (root s) = Some (Group sa sms) →
  sms !! "depends_on" = Some (Dataset d1 a1) →
  py_ne (dataset_read ver d1) (VBytes phi_target) = false →
  (∀ axis target, (axis, target) ∈ I19_chain →
     has_attr (root s) (sample_transformations ++ [axis]) "depends_on"
       (VBytes target)) →
  run_checks ver s = Returns tt s.
Proof.
  intros Hroot Hd Hne Hfind Hds Hc Hdep0 Hz Hvec Hvne Hdep Hs Hsd Hsne Hchain.
  unfold run_checks.
  rewrite (bind_returns _ _ _ _ _ (check_definition_unchanged ver [] s d a Hd Hne)).
  (* the detector *)
  assert (Hdet : check_detector ver [] s = Returns tt s).
  { unfold check_detector. apply try_returns.
    pose proof Hfind as Hg. apply find_two_theta_inv in Hg as (_ & _ & _ & [g Hg]).
    apply (node_get_app_cons_group primary_path ds []) in Hg as (pa & pms & Hg & _).
    erewrite bind_returns
      by (eapply (getitem_Some [] "entry" ["instrument"; "detector"; "transformations"]),
            Hg).
    etrans;
      [exact (check_detector_transformations_settled ver primary_path s ds d0
                a0 z vec _ Hfind Hds Hc Hdep0 Hz Hvec Hvne Hdep)|].
    simpl. rewrite app_nil_r. by destruct s. }
  rewrite (bind_returns _ _ _ _ _ Hdet).
  (* the sample *)
  erewrite bind_returns; cycle 1.
  { erewrite bind_returns by (eapply (getitem_Some [] "entry" ["sample"]), Hs).
    cbn [app].
    rewrite (check_sample_depends_on_present ver _ s sa sms d1 a1 Hs Hsd), Hsne.
    reflexivity. }
  (* the goniometer *)
  destruct (Hchain "omega" ".") as (n & Hn & _);
    [apply list_elem_of_In; simpl; tauto|].
  apply (node_get_app_cons_group sample_transformations "omega" []) in Hn
    as (ta & tms & Ht & _).
  erewrite bind_returns
    by (eapply (getitem_Some [] "entry" ["sample"; "transformations"]), Ht).
  rewrite check_I19_dependency_tree_steps.
  apply for_each_fix_axis_canonical. intros axis target Hin. apply Hchain.
  apply list_elem_of_In. apply list_elem_of_In in Hin.
  unfold I19_chain, I19_steps in *. simpl in *. tauto.
Qed.

End RunsFurther.

(** * Further properties of the writers *)

(** ** [write_NXmx_nexus]: what is written when the call fails *)

Section WriterFurther.

Import NexusWriter.

Variables (Path DetectorScope ModuleScope SourceScope BeamScope
           AttenuatorScope ScanRange : Type).
Variable data_shape : Path → exn + list nat.
Variable find_number_of_images : list Path → exn + nat.
Variable find_scan_axis : list string → list scalar → list scalar → exn + string.
Variable calculate_scan_range :
  scalar → scalar → option scalar → option nat → exn + ScanRange.
Variable write_NXdata :
  path → list Path → goniometer_scope → string → string → ScanRange →
  string → option string → M unit.
Variable write_NXinstrument :
  path → BeamScope → AttenuatorScope → SourceScope → M unit.
Variable write_NXdetector :
  path → DetectorScope → string → string * nat → M unit.
Variable write_NXdetector_module :
  path → ModuleScope → string → DetectorScope → M unit.
Variable write_NXsource : path → SourceScope → M unit.
Variable write_NXsample :
  path → goniometer_scope → string → string → string → ScanRange → M unit.

Local Abbreviation writer :=
  (write_NXmx_nexus Path DetectorScope ModuleScope SourceScope BeamScope
     AttenuatorScope ScanRange data_shape find_number_of_images find_scan_axis
     calculate_scan_range write_NXdata write_NXinstrument write_NXdetector
     write_NXdetector_module write_NXsource write_NXsample).
Local Abbreviation images := (number_of_images Path data_shape find_number_of_images).
Local Abbreviation scan := (compute_scan_range ScanRange calculate_scan_range).

(** X15. When the number of images, the scan axis or the scan range cannot
    be worked out, [write_NXmx_nexus] raises and the file is as it was:
    nothing is written before the three are known. *)
Theorem write_NXmx_nexus_fails_before_writing nxsfile datafiles goniometer
    detector module source beam attenuator timestamps coordinate_frame vds s :
  ¬ (∃ num_images osc_axis scan_range,
       images datafiles = inr num_images ∧
       find_scan_axis (axes goniometer) (starts goniometer) (ends goniometer)
       = inr osc_axis ∧
       scan goniometer osc_axis num_images = inr scan_range) →
  ∃ e, writer nxsfile datafiles goniometer detector module source beam
         attenuator timestamps coordinate_frame vds s = Raises e s.
Proof.
  intros Hnot. unfold write_NXmx_nexus, bind at 1.
  destruct (images datafiles) as [e|n] eqn:Hn; simpl; [by eauto|].
  unfold bind at 1.
  destruct (find_scan_axis _ _ _) as [e|osc] eqn:Hosc; simpl; [by eauto|].
  unfold bind at 1.
  destruct (scan goniometer osc n) as [e|r] eqn:Hr; simpl; [by eauto|].
  destruct Hnot. by exists n, osc, r.
Qed.

(** X16. On a file that already has an [entry], with the scan range worked
    out, the call raises [ValueError] when it creates the group; by then the
    [default] attribute of the file has been set to ["entry"], and that is
    all the call has written. *)
Theorem write_NXmx_nexus_entry_exists nxsfile datafiles goniometer detector
    module source beam attenuator timestamps coordinate_frame vds s
    num_images osc_axis scan_range a ms :
  images datafiles = inr num_images →
  find_scan_axis (axes goniometer) (starts goniometer) (ends goniometer)
  = inr osc_axis →
  scan goniometer osc_axis num_images = inr scan_range →
  node_get nxsfile (root s) = Some (Group a ms) →
  is_Some (ms !! "entry") →
  writer nxsfile datafiles goniometer detector module source beam attenuator
    timestamps coordinate_frame vds s
  = Raises ValueError
      (with_root (node_alter (set_attr "default" (VStr "entry")) nxsfile) s).
Proof.
  intros Hn Hosc Hr Hf [c Hc]. unfold write_NXmx_nexus.
  unfold bind at 1. rewrite Hn. simpl.
  unfold bind at 1. rewrite Hosc. simpl.
  unfold bind at 1. rewrite Hr. simpl. unfold write_entry.
  unfold bind at 1. rewrite (attrs_set_Some _ _ _ _ _ Hf).
  unfold bind at 1, create_group. simpl.
  rewrite node_get_alter, Hf. simpl. by rewrite Hc.
Qed.

End WriterFurther.

(** ** [write_nexus_demo] *)

Section DemoFurther.

Import NexusWriter NexusWriterDemo.

Variables (Path DetectorScope ModuleScope SourceScope BeamScope
           AttenuatorScope : Type).
Variable find_scan_axis : list string → list scalar → list scalar → exn + string.
Variable calculate_scan_range :
  scalar → scalar → option scalar → option nat → exn + list scalar.
Variable data_writer :
  list Path → string * option nat → DetectorScope → scan_range → M unit.
Variable write_NXdata :
  path → list Path → goniometer_scope → string → string → scan_range →
  string → option string → M unit.
Variable write_NXinstrument :
  path → BeamScope → AttenuatorScope → SourceScope → M unit.
Variable write_NXdetector :
  path → DetectorScope → string → string * option nat → M unit.
Variable write_NXdetector_module :
  path → ModuleScope → string → DetectorScope → M unit.
Variable write_NXsource : path → SourceScope → M unit.
Variable write_NXsample :
  path → goniometer_scope → string → string → string → scan_range → M unit.

Local Abbreviation demo :=
  (write_nexus_demo Path DetectorScope ModuleScope SourceScope BeamScope
     AttenuatorScope find_scan_axis calculate_scan_range data_writer
     write_NXdata write_NXinstrument write_NXdetector write_NXdetector_module
     write_NXsource write_NXsample).
Local Abbreviation writers :=
  (call_writers Path DetectorScope ModuleScope SourceScope BeamScope
     AttenuatorScope write_NXdata write_NXinstrument write_NXdetector
     write_NXdetector_module write_NXsource write_NXsample).

(** X17. With a mode that is neither ["images"] nor ["events"] the call
    never returns and writes nothing: it raises what the search for the scan
    axis raises, or [UnboundLocalError] for [scan_range] once the axis is
    found, with the file as it was. *)
Theorem write_nexus_demo_unknown_mode nxsfile datafiles data_type
    coordinate_frame goniometer detector module source beam attenuator vds s :
  data_type.1 ≠ "images" → data_type.1 ≠ "events" →
  (∃ e, demo nxsfile datafiles data_type coordinate_frame goniometer detector
          module source beam attenuator vds s = Finished (Raises e s)) ∨
  demo nxsfile datafiles data_type coordinate_frame goniometer detector
    module source beam attenuator vds s = UnboundLocalError "scan_range" s.
Proof.
  intros Hi He. unfold write_nexus_demo, demo_scan_range.
  rewrite !bool_decide_eq_false_2 by done.
  destruct (find_scan_axis _ _ _) as [e|osc]; [by eauto|].
  destruct (list_index osc (axes goniometer)) as [idx|]; by eauto.
Qed.

(** X18. In images mode, when the call returns: the scan range is the array
    computed for the scan axis, from its increment when no count was given
    and from the count alone when one was; the count handed to the data
    writer and to the writers is the given one, and the length of the array
    when none was given. *)
Theorem write_nexus_demo_images nxsfile datafiles count coordinate_frame
    goniometer detector module source beam attenuator vds s s' :
  demo nxsfile datafiles ("images", count) coordinate_frame goniometer
    detector module source beam attenuator vds s = Finished (Returns tt s') →
  ∃ osc_axis idx start end_ xs s1,
    find_scan_axis (axes goniometer) (starts goniometer) (ends goniometer)
    = inr osc_axis ∧
    list_index osc_axis (axes goniometer) = Some idx ∧
    starts goniometer !! idx = Some start ∧
    ends goniometer !! idx = Some end_ ∧
    match count with
    | None =>
        ∃ increment, increments goniometer !! idx = Some increment ∧
          calculate_scan_range start end_ (Some increment) None = inr xs
    | Some n => calculate_scan_range start end_ None (Some n) = inr xs
    end ∧
    let data_type := ("images", Some (default (length xs) count)) in
    data_writer datafiles data_type detector (Positions xs) s = Returns tt s1 ∧
    writers nxsfile datafiles coordinate_frame osc_axis (Positions xs)
      data_type goniometer detector module source beam attenuator vds s1
    = Returns tt s'.
Proof.
  unfold write_nexus_demo, demo_scan_range, list_item.
  destruct (find_scan_axis _ _ _) as [e|osc] eqn:Hosc; [done|].
  destruct (list_index osc (axes goniometer)) as [idx|] eqn:Hidx; [|done].
  rewrite bool_decide_eq_true_2 by done. cbn [snd].
  destruct count as [n|].
  - destruct (starts goniometer !! idx) as [start|] eqn:Hstart;
      destruct (ends goniometer !! idx) as [end_|] eqn:Hend; try done.
    destruct (calculate_scan_range start end_ None (Some n)) as [e|xs] eqn:Hxs;
      [done|].
    intros [= H]. apply bind_Returns_inv in H as ([] & s1 & H1 & H2).
    by exists osc, idx, start, end_, xs, s1.
  - destruct (starts goniometer !! idx) as [start|] eqn:Hstart;
      destruct (ends goniometer !! idx) as [end_|] eqn:Hend;
      destruct (increments goniometer !! idx) as [increment|] eqn:Hinc;
      try done.
    destruct (calculate_scan_range start end_ (Some increment) None)
      as [e|xs] eqn:Hxs; [done|].
    intros [= H]. apply bind_Returns_inv in H as ([] & s1 & H1 & H2).
    exists osc, idx, start, end_, xs, s1. split_and!; eauto.
Qed.

End DemoFurther.

(** * Properties of the command line *)

(** ** Names, stems and suffixes *)

Section Names.

Import Stdlib.Strings.Ascii CommandLine.

Implicit Types (s t name : string) (c : ascii).

Lemma string_length_app s t :
  String.length (s +:+ t) = String.length s + String.length t.
Proof. induction s as [|a s IH]; simpl; [done|by rewrite IH]. Qed.

Lemma string_take_app s t : string_take (String.length s) (s +:+ t) = s.
Proof. induction s as [|a s IH]; simpl; [by destruct t|by rewrite IH]. Qed.

Lemma string_drop_app s t : string_drop (String.length s) (s +:+ t) = t.
Proof. induction s as [|a s IH]; simpl; [by destruct t|done]. Qed.

Lemma rfind_lt c s i : rfind c s = Some i → i < String.length s.
Proof.
  revert i. induction s as [|a s IH]; intros i; simpl; [done|].
  destruct (rfind c s) as [j|].
  - intros [= <-]. specialize (IH j eq_refl). lia.
  - case_bool_decide; [|done]. intros [= <-]. lia.
Qed.

Lemma rfind_app_None c s t :
  rfind c s = None → rfind c t = None → rfind c (s +:+ t) = None.
Proof.
  intros Hs Ht. induction s as [|a s IH]; simpl in *; [done|].
  destruct (rfind c s) as [j|]; [done|]. rewrite IH by done.
  by case_bool_decide.
Qed.

Lemma rfind_app_here c s t :
  rfind c t = None → rfind c (s +:+ String c t) = Some (String.length s).
Proof.
  intros Ht. induction s as [|a s IH]; simpl.
  - rewrite Ht. by rewrite bool_decide_eq_true_2.
  - by rewrite IH.
Qed.

Lemma rfind_take_None c n s : rfind c s = None → rfind c (string_take n s) = None.
Proof.
  revert n. induction s as [|a s IH]; intros [|n]; simpl; try done.
  destruct (rfind c s) as [j|]; [done|]. case_bool_decide; [done|].
  intros _. by rewrite IH.
Qed.

Lemma rfind_drop_None c s i :
  rfind c s = Some i → rfind c (string_drop (S i) s) = None.
Proof.
  revert i. induction s as [|a s IH]; intros i; simpl; [done|].
  destruct (rfind c s) as [j|] eqn:Hj.
  - intros [= <-]. by apply IH.
  - case_bool_decide; [|done]. intros [= <-]. by destruct s.
Qed.

(** A name holds no slash. *)
Lemma rfind_path_name p : rfind "/" (path_name p) = None.
Proof.
  unfold path_name. destruct (rfind "/" p) as [i|] eqn:Hi; [|done].
  by apply rfind_drop_None.
Qed.

Lemma rfind_stem c name : rfind c name = None → rfind c (stem name) = None.
Proof.
  intros H. unfold stem. destruct (suffix_at name); [|done].
  by apply rfind_take_None.
Qed.

Lemma stem_nonempty name : name ≠ "" → stem name ≠ "".
Proof.
  intros Hne. unfold stem, suffix_at.
  destruct (rfind "." name) as [i|]; [|done].
  case_bool_decide as Hi; [|done].
  destruct name as [|a name]; [done|]. by destruct i as [|i]; [lia|].
Qed.

Lemma path_name_bare s : rfind "/" s = None → path_name s = s.
Proof. intros H. unfold path_name. by rewrite H. Qed.

(** The name made of a stem and [.nxs]. *)
Lemma suffix_at_nxs s :
  s ≠ "" → suffix_at (s +:+ ".nxs") = Some (String.length s).
Proof.
  intros Hs. unfold suffix_at.
  rewrite (rfind_app_here "." s "nxs") by done.
  rewrite bool_decide_eq_true_2; [done|].
  rewrite string_length_app. simpl. destruct s; [done|simpl; lia].
Qed.

Lemma index_where_lookup (p : string → bool) values i :
  index_where p values = Some i → ∃ v, values !! i = Some v ∧ p v = true.
Proof.
  revert i. induction values as [|v vs IH]; intros i; simpl; [done|].
  destruct (p v) eqn:Hv.
  - intros [= <-]. eauto.
  - destruct (index_where p vs) as [j|]; [|done]. intros [= <-]. by apply IH.
Qed.

End Names.

(** ** [_CheckFileExtension] *)

Section CheckFileExtensionProperties.

Import CommandLine.

Variable resolve : string → string.

(** X19. The action keeps the number of values and every value but the
    first one that contains ["filename"]. *)
Theorem check_file_extension_others_kept values :
  length (check_file_extension resolve values).1 = length values ∧
  ∀ j, index_where (contains "filename") values ≠ Some j →
       (check_file_extension resolve values).1 !! j = values !! j.
Proof.
  unfold check_file_extension.
  destruct (index_where _ values) as [i|]; [|done].
  destruct (values !! i) as [v|]; [|done].
  destruct (_ && _); [|done]. simpl. split.
  - apply length_insert.
  - intros j Hj. apply list_lookup_insert_ne. congruence.
Qed.

(** X20. When the resolved name of the chosen value is not empty and its
    suffix is neither [.h5] nor [.nxs], the value is replaced by a bare file
    name, without any directory, whose suffix is [.nxs] and whose stem is
    the stem of the resolved name. *)
Theorem check_file_extension_replacement values i v :
  index_where (contains "filename") values = Some i →
  values !! i = Some v →
  path_name (resolve v) ≠ "" →
  suffix (path_name (resolve v)) ≠ ".h5" →
  suffix (path_name (resolve v)) ≠ ".nxs" →
  ∃ v', (check_file_extension resolve values).1 !! i = Some v' ∧
        path_name v' = v' ∧ suffix v' = ".nxs" ∧
        stem v' = stem (path_name (resolve v)).
Proof.
  intros Hi Hv Hne Hh5 Hnxs. unfold check_file_extension. rewrite Hi, Hv.
  rewrite !bool_decide_eq_true_2 by done. simpl.
  set (name := path_name (resolve v)) in *.
  exists (stem name +:+ ".nxs").
  pose proof (stem_nonempty name Hne) as Hstem.
  split_and!.
  - apply list_lookup_insert_eq. by apply lookup_lt_Some in Hv.
  - apply path_name_bare, rfind_app_None; [|done].
    apply rfind_stem, rfind_path_name.
  - unfold suffix. rewrite suffix_at_nxs by done. apply string_drop_app.
  - unfold stem at 1. rewrite suffix_at_nxs by done. apply string_take_app.
Qed.

End CheckFileExtensionProperties.

(** ** [add_tristan_spec] *)

Section AddTristanSpecProperties.

Import CommandLine.

Variable V : Type.
Variable class_attribute : string → bool.

Implicit Types (detector : gmap string V) (items : list (string * V)).

Local Abbreviation has := (has_attribute V class_attribute).
Local Abbreviation add := (add_tristan_spec V class_attribute).

Lemma has_attribute_insert_ne detector k v k' :
  k ≠ k' → has (<[k := v]> detector) k' = has detector k'.
Proof. intros Hne. unfold has_attribute. by rewrite lookup_insert_ne. Qed.

Lemma has_attribute_false detector k :
  has detector k = false → detector !! k = None.
Proof.
  unfold has_attribute. intros [H _]%orb_false_iff.
  apply bool_decide_eq_false in H. by apply eq_None_not_Some.
Qed.

Lemma has_attribute_insert_false detector k v k' :
  has (<[k := v]> detector) k' = false → k ≠ k' ∧ has detector k' = false.
Proof.
  intros H. destruct (decide (k = k')) as [<-|Hne].
  - apply has_attribute_false in H. by rewrite lookup_insert_eq in H.
  - by rewrite has_attribute_insert_ne in H.
Qed.


End AddTristanSpecProperties.

(** * The further properties at the example files *)

Section FurtherExamples.

Import NexusWriter NexusWriterDemo CommandLine.

(** At the settled group. *)
Lemma check_detector_transformations_canonical_untouched_witness :
  check_detector_transformations H5py3 [] settled_group = Returns tt settled_group.
Proof.
  eapply (check_detector_transformations_canonical_untouched H5py3 []
            settled_group "two_theta").
  - vm_compute. reflexivity.
  - vm_compute. reflexivity.
  - vm_compute. reflexivity.
  - vm_compute. reflexivity.
  - vm_compute. reflexivity.
  - vm_compute. reflexivity.
  - vm_compute. reflexivity.
  - vm_compute. reflexivity.
Defined.

(** At the tilted group. *)
Lemma check_detector_transformations_second_run_witness :
  ∃ dep,
    has_attr (root tilted_group) ([] ++ det_z_name) "depends_on" dep ∧
    check_detector_transformations H5py3 []
      (final_state (check_detector_transformations H5py3 [] tilted_group))
    = Returns tt
        (State (root (final_state (check_detector_transformations H5py3 [] tilted_group)))
               (taken (final_state (check_detector_transformations H5py3 [] tilted_group))
                ++ if py_ne dep (VBytes two_theta_target)
                   then [FixDetZDependsOn] else [])).
Proof.
  apply (check_detector_transformations_second_run H5py3 [] tilted_group).
  vm_compute. reflexivity.
Defined.


(** At the tilted group without [detector_z]. *)
Lemma check_detector_transformations_no_det_z_witness :
  ∃ a,
    check_detector_transformations H5py3 [] no_det_z_group
    = Raises KeyError
        (State (node_alter (recreated a) ([] ++ ["two_theta"; "two_theta"])
                  (root no_det_z_group))
               (taken no_det_z_group ++ [FixTwoThetaValue])).
Proof.
  eexists.
  eapply (check_detector_transformations_no_det_z H5py3 [] no_det_z_group
            "two_theta" (VArr [five]) _ true).
  - vm_compute. reflexivity.
  - vm_compute. reflexivity.
  - vm_compute. reflexivity.
  - vm_compute. reflexivity.
Defined.

(** At the group with two numbers for two-theta. *)
Lemma check_detector_transformations_long_array_witness :
  check_detector_transformations H5py3 [] two_values_group
  = Raises ValueError two_values_group.
Proof.
  eapply (check_detector_transformations_long_array H5py3 [] two_values_group
            "two_theta" five five []).
  - vm_compute. reflexivity.
  - vm_compute. reflexivity.
Defined.

(** At the file with the broken chain. *)
Lemma check_I19_dependency_tree_idempotent_witness :
  check_I19_dependency_tree sample_transformations
    (final_state (check_I19_dependency_tree sample_transformations broken_chain_file))
  = Returns tt
      (final_state (check_I19_dependency_tree sample_transformations broken_chain_file)).
Proof.
  apply (check_I19_dependency_tree_idempotent sample_transformations
           broken_chain_file).
  vm_compute. reflexivity.
Defined.

Lemma check_I19_dependency_tree_axis_witness :
  node_get (sample_transformations ++ ["phi"])
    (root (final_state (check_I19_dependency_tree sample_transformations
                          broken_chain_file)))
  = set_attr "depends_on" (VBytes "/entry/sample/transformations/kappa")
      <$> node_get (sample_transformations ++ ["phi"]) (root broken_chain_file).
Proof.
  apply (check_I19_dependency_tree_axis sample_transformations broken_chain_file).
  - vm_compute. reflexivity.
  - do 3 apply list_elem_of_further. apply list_elem_of_here.
Defined.



(** At an empty sample group. *)
Lemma check_sample_depends_on_idempotent_witness :
  check_sample_depends_on H5py3 []
    (final_state (check_sample_depends_on H5py3 [] empty_file))
  = Returns tt (final_state (check_sample_depends_on H5py3 [] empty_file)).
Proof.
  apply (check_sample_depends_on_idempotent H5py3 [] empty_file).
  vm_compute. reflexivity.
Defined.


(** At a written file. *)
Lemma check_definition_settles_witness :
  (∃ a, node_get ([] ++ ["entry"; "definition"])
          (root (final_state (check_definition H5py3 [] fresh_file)))
        = Some (Dataset NXmx a)) ∧
  ∃ s2, check_definition H5py3 []
          (final_state (check_definition H5py3 [] fresh_file)) = Returns tt s2 ∧
        root s2 = root (final_state (check_definition H5py3 [] fresh_file)).
Proof.
  apply (check_definition_settles H5py3 [] fresh_file).
  vm_compute. reflexivity.
Defined.

(** At an empty file. *)
Lemma run_checks_no_definition_witness :
  run_checks H5py3 empty_file = Raises KeyError empty_file.
Proof.
  apply (run_checks_no_definition H5py3 empty_file ∅ ∅).
  - vm_compute. reflexivity.
  - vm_compute. reflexivity.
Defined.

(** At the canonical file, read with h5py 2. *)
Lemma run_checks_canonical_untouched_witness :
  run_checks H5py2 canonical_file = Returns tt canonical_file.
Proof.
  eapply (run_checks_canonical_untouched H5py2 canonical_file _ _ _ _ "two_theta").
  - vm_compute. reflexivity.
  - vm_compute. reflexivity.
  - vm_compute. reflexivity.
  - vm_compute. reflexivity.
  - vm_compute. reflexivity.
  - vm_compute. reflexivity.
  - vm_compute. reflexivity.
  - vm_compute. reflexivity.
  - vm_compute. reflexivity.
  - vm_compute. reflexivity.
  - vm_compute. reflexivity.
  - vm_compute. reflexivity.
  - vm_compute. reflexivity.
  - vm_compute. reflexivity.
  - intros axis target Hin. apply list_elem_of_In in Hin. simpl in Hin.
    repeat (destruct Hin as [[= <- <-]|Hin];
            [eexists; split; [vm_compute; reflexivity|vm_compute; reflexivity]|]).
    destruct Hin.
Defined.

(** With a goniometer that does not move. *)
Lemma write_NXmx_nexus_fails_before_writing_witness :
  ∃ e, write_with still_goniometer empty_file = Raises e empty_file.
Proof.
  apply (write_NXmx_nexus_fails_before_writing string unit unit unit unit unit
           (list scalar)).
  intros (n & osc & r & _ & H & _). vm_compute in H. discriminate.
Defined.

(** On a file that was written already. *)
Lemma write_NXmx_nexus_entry_exists_witness :
  write_with SpecWriters.goniometer fresh_file
  = Raises ValueError
      (with_root (node_alter (set_attr "default" (VStr "entry")) []) fresh_file).
Proof.
  eapply (write_NXmx_nexus_entry_exists string unit unit unit unit unit
            (list scalar)).
  - vm_compute. reflexivity.
  - vm_compute. reflexivity.
  - vm_compute. reflexivity.
  - vm_compute. reflexivity.
  - vm_compute. eauto.
Defined.

(** With a mode that does not exist. *)
Lemma write_nexus_demo_unknown_mode_witness :
  (∃ e, demo_with ("pictures", None) empty_file = Finished (Raises e empty_file)) ∨
  demo_with ("pictures", None) empty_file
  = UnboundLocalError "scan_range" empty_file.
Proof.
  apply (write_nexus_demo_unknown_mode string unit unit unit unit unit); done.
Defined.

(** In images mode without a count. *)
Lemma write_nexus_demo_images_witness :
  ∃ osc_axis idx start end_ xs s1,
    SpecWriters.find_scan_axis (axes SpecWriters.goniometer)
      (starts SpecWriters.goniometer) (ends SpecWriters.goniometer)
    = inr osc_axis ∧
    list_index osc_axis (axes SpecWriters.goniometer) = Some idx ∧
    starts SpecWriters.goniometer !! idx = Some start ∧
    ends SpecWriters.goniometer !! idx = Some end_ ∧
    (∃ increment,
       increments SpecWriters.goniometer !! idx = Some increment ∧
       SpecWriters.calculate_scan_range start end_ (Some increment) None = inr xs) ∧
    s1 = empty_file.
Proof.
  destruct (write_nexus_demo_images string unit unit unit unit unit
              SpecWriters.find_scan_axis SpecWriters.calculate_scan_range
              (λ _ _ _ _, ret tt) (λ _ _ _ _ _ _ _ _, ret tt) (λ _ _ _ _, ret tt)
              (λ _ _ _ _, ret tt) (λ _ _ _ _, ret tt) (λ _ _, ret tt)
              (λ _ _ _ _ _ _, ret tt)
              [] ["data_000001.h5"] None "mcstas" SpecWriters.goniometer
              () () () () () None empty_file empty_file)
    as (osc & idx & start & end_ & xs & s1 & H1 & H2 & H3 & H4 & H5 & H6 & _).
  - vm_compute. reflexivity.
  - exists osc, idx, start, end_, xs, s1. split_and!; try done.
    by injection H6 as <-.
Defined.

(** At the example command line. *)
Lemma check_file_extension_others_kept_witness :
  length (check_file_extension resolve_in_home phil_args).1 = length phil_args ∧
  (check_file_extension resolve_in_home phil_args).1 !! 2 = phil_args !! 2.
Proof.
  destruct (check_file_extension_others_kept resolve_in_home phil_args)
    as [Hlen Hkept].
  split; [exact Hlen|]. apply Hkept. vm_compute. discriminate.
Defined.

Lemma check_file_extension_replacement_witness :
  ∃ v', (check_file_extension resolve_in_home phil_args).1 !! 1 = Some v' ∧
        path_name v' = v' ∧ suffix v' = ".nxs" ∧
        stem v' = stem (path_name (resolve_in_home "output.filename=scan.txt")).
Proof.
  apply (check_file_extension_replacement resolve_in_home phil_args 1).
  - vm_compute. reflexivity.
  - vm_compute. reflexivity.
  - vm_compute. discriminate.
  - vm_compute. discriminate.
  - vm_compute. discriminate.
Defined.


End FurtherExamples.
